(** * game-nerd-bot: the retrying catalogue client, the lookup normalizer,
      the tool handlers and the tool-calling loop, embedded in Rocq.

    Source files embedded: [database.py], [classes.py], [tools.py], [app.py].

    Conventions of the embedding.
    - Python values that travel through the program (decoded JSON bodies,
      keyword arguments, envelopes) are values of [json].  Floats are left
      out of [json]; the only float arithmetic of the program, the back-off
      delay, is carried out over the rationals [Q].
    - Python exceptions are the [Raise] case of [res]; effects (HTTP GETs,
      sleeps, random draws) are logged in a [world] that is threaded through
      the monad [M].
    - What the program takes from outside (library functions, the constants
      module, the network, the random source, the language model) is a field
      of the class [Env]. *)

From Stdlib Require Import String Ascii List Bool ZArith QArith Lia Lqa DecimalString.
Import ListNotations.
Local Open Scope string_scope.
Local Open Scope list_scope.
Local Close Scope Q_scope.

Set Implicit Arguments.
Set Warnings "-register-all".

(* ===================================================================== *)
(** * Python values and primitives *)
(* ===================================================================== *)

Module Py.

(** Decoded JSON, as [json.loads] produces it: None, bool, int, str, list,
    dict (insertion ordered, hence an association list). *)
Inductive json : Type :=
| JNull
| JBool (b : bool)
| JInt (z : Z)
| JStr (s : string)
| JList (l : list json)
| JObj (kv : list (string * json)).

Inductive exn_kind : Type :=
| AttributeError | TypeError | ValueError | ValidationError
| JSONDecodeError | APIError.

Record exn : Type := MkExn { exn_type : exn_kind; exn_msg : string }.

Inductive res (A : Type) : Type :=
| Ok (a : A)
| Raise (e : exn).
Arguments Ok {A} a.
Arguments Raise {A} e.

Definition rbind {A B} (r : res A) (k : A -> res B) : res B :=
  match r with
  | Ok a => k a
  | Raise e => Raise e
  end.

Definition is_ok {A} (r : res A) : bool :=
  match r with Ok _ => true | Raise _ => false end.

(** [bool(v)]: Python truthiness. *)
Definition truthy (v : json) : bool :=
  match v with
  | JNull => false
  | JBool b => b
  | JInt z => negb (Z.eqb z 0)
  | JStr s => negb (String.eqb s "")
  | JList l => match l with [] => false | _ => true end
  | JObj kv => match kv with [] => false | _ => true end
  end.

(** [a or b] *)
Definition py_or (a b : json) : json := if truthy a then a else b.

Definition type_name (v : json) : string :=
  match v with
  | JNull => "NoneType"
  | JBool _ => "bool"
  | JInt _ => "int"
  | JStr _ => "str"
  | JList _ => "list"
  | JObj _ => "dict"
  end.

Definition no_attribute {A} (v : json) (attr : string) : res A :=
  Raise (MkExn AttributeError
           ("'" ++ type_name v ++ "' object has no attribute '" ++ attr ++ "'")).

Fixpoint assoc {A} (k : string) (kv : list (string * A)) : option A :=
  match kv with
  | [] => None
  | (k', v) :: rest => if String.eqb k k' then Some v else assoc k rest
  end.

(** [d.get(k, default)]; only dicts have the method. *)
Definition get_default (d : json) (k : string) (default : json) : res json :=
  match d with
  | JObj kv => Ok (match assoc k kv with Some v => v | None => default end)
  | _ => no_attribute d "get"
  end.

(** [d.get(k)] *)
Definition get (d : json) (k : string) : res json := get_default d k JNull.

(** The items a [for] loop (or a comprehension) draws from [v]. *)
Definition iter (v : json) : res (list json) :=
  match v with
  | JList l => Ok l
  | JObj kv => Ok (map (fun p => JStr (fst p)) kv)
  | JStr s => Ok (map (fun c => JStr (String c EmptyString)) (list_ascii_of_string s))
  | _ => Raise (MkExn TypeError ("'" ++ type_name v ++ "' object is not iterable"))
  end.

(** [sep.join(items)]: every item must be a [str]. *)
Fixpoint join_strs (sep : string) (items : list string) : string :=
  match items with
  | [] => ""
  | [s] => s
  | s :: rest => s ++ sep ++ join_strs sep rest
  end.

Fixpoint all_strs_from (i : nat) (items : list json) : res (list string) :=
  match items with
  | [] => Ok []
  | JStr s :: rest => rbind (all_strs_from (S i) rest) (fun ss => Ok (s :: ss))
  | v :: _ =>
      Raise (MkExn TypeError
               ("sequence item " ++ NilZero.string_of_uint (Nat.to_uint i)
                ++ ": expected str instance, " ++ type_name v ++ " found"))
  end.

Definition join (sep : string) (items : list json) : res string :=
  rbind (all_strs_from 0 items) (fun ss => Ok (join_strs sep ss)).

(** [range(n)] for an integer [n]: empty when [n <= 0]. *)
Definition range (n : Z) : list Z := map Z.of_nat (seq 0 (Z.to_nat n)).

(** [random.uniform(a, b)] is [a + (b - a) * random()]. *)
Definition uniform (a b r : Q) : Q := (a + (b - a) * r)%Q.

End Py.
Import Py.

(* ===================================================================== *)
(** * The world outside the program *)
(* ===================================================================== *)

Record request : Type := MkRequest {
  url : string;
  params : list (string * json)
}.

(** What one pass through the [try] block of the retrying GET can do:
    [session.get], [raise_for_status] or [response.json] raises a
    [requests.RequestException] whose [str] is [msg], or the decoded body
    is obtained. *)
Inductive outcome : Type :=
| Failed (msg : string)
| Responded (body : json).

Inductive event : Type :=
| EvGet (r : request)
| EvSleep (seconds : Q).

(** The log of effects: [events] oldest first, [gets] and [draws] count the
    GETs issued and the random numbers drawn so far. *)
Record world : Type := MkWorld {
  events : list event;
  gets : nat;
  draws : nat
}.

Definition M (A : Type) : Type := world -> res A * world.

Definition ret {A} (a : A) : M A := fun w => (Ok a, w).

Definition throw {A} (e : exn) : M A := fun w => (Raise e, w).

Definition bind {A B} (m : M A) (k : A -> M B) : M B :=
  fun w =>
    match m w with
    | (Ok a, w') => k a w'
    | (Raise e, w') => (Raise e, w')
    end.

Definition lift {A} (r : res A) : M A := fun w => (r, w).

(** [try: m  except Exception as error: h error] *)
Definition try_except {A} (m : M A) (h : exn -> M A) : M A :=
  fun w =>
    match m w with
    | (Ok a, w') => (Ok a, w')
    | (Raise e, w') => h e w'
    end.

Declare Scope py_scope.
Delimit Scope py_scope with py.
Notation "x <- m ;; k" := (bind m (fun x => k))
  (at level 61, m at next level, right associativity) : py_scope.
Notation "x <-- r ;; k" := (rbind r (fun x => k))
  (at level 61, r at next level, right associativity) : py_scope.
Local Open Scope py_scope.

(** A binding of the module namespace of [app.py], as far as a
    call of the looked-up tool with the decoded keyword arguments can tell
    bindings apart. *)
Inductive pyobj : Type :=
| PyFalsy
| PyNotCallable (type : string)
| PyCallable (call : list (string * json) -> M json).

(** One turn of the conversation. *)
Record tool_call : Type := MkToolCall {
  tc_id : string;
  tc_name : string;        (* tool_call.function.name *)
  tc_arguments : string    (* tool_call.function.arguments, serialized JSON *)
}.

Record message : Type := MkMessage {
  content : option string;
  tool_calls : option (list tool_call)
}.

Record response : Type := MkResponse {   (* response.choices[0] *)
  finish_reason : string;
  r_message : message
}.

Inductive turn : Type :=
| RoleContent (role : string) (text : string)       (* {"role": .., "content": ..} *)
| ModelMessage (m : message)                        (* the model's own message object *)
| ToolResult (text : string) (tool_call_id : string).

Class Env : Type := {
  (* libraries *)
  json_loads : string -> res json;
  json_dumps : json -> string;
  container_str : json -> string;          (* builtin str on a list or a dict *)
  int_of_str : string -> res Z;            (* builtin int on a str *)
  validate_str : json -> res string;       (* pydantic, field of type str *)
  validate_int : json -> res Z;            (* pydantic, field of type int *)
  (* configuration: environment, clock, constants.py, prompts.py *)
  rawg_api_key : json;
  today : string;                          (* now().strftime('%Y-%m-%d') *)
  SYSTEM_PROMPT : string;
  PARENT_PLATFORM_SLUG_TO_ID : string -> option Z;
  PLATFORM_SLUG_TO_ID : string -> option Z;
  STORE_SLUG_TO_ID : string -> option Z;
  other_globals : string -> option pyobj;
  (* the outside world *)
  http_get : nat -> request -> outcome;    (* the n-th GET of the process *)
  random : nat -> Q;                       (* the n-th value of random() *)
  llm : list turn -> res response          (* chat.completions.create *)
}.

(** [str(v)], which is also what an f-string field [{v}] inserts. *)
Definition py_str {E : Env} (v : json) : string :=
  match v with
  | JNull => "None"
  | JBool true => "True"
  | JBool false => "False"
  | JInt z => NilZero.string_of_int (Z.to_int z)
  | JStr s => s
  | JList _ | JObj _ => container_str v
  end.

(** [int(v)] *)
Definition py_int {E : Env} (v : json) : res Z :=
  match v with
  | JInt z => Ok z
  | JBool b => Ok (if b then 1 else 0)%Z
  | JStr s => int_of_str s
  | _ => Raise (MkExn TypeError
                  ("int() argument must be a string, a bytes-like object or a real number, not '"
                   ++ type_name v ++ "'"))
  end.

(* ===================================================================== *)
(** * database.py *)
(* ===================================================================== *)

Module Database.
Section WithEnv.
Context {E : Env}.

Definition RAWG_GAMES_API_BASE_URL : string := "https://api.rawg.io/api/games".

(** [self.http_session.get(..); raise_for_status(); response.json()] *)
Definition session_get (r : request) : world -> outcome * world :=
  fun w => (http_get (gets w) r,
            MkWorld (events w ++ [EvGet r]) (S (gets w)) (draws w)).

(** [random.uniform(0, 0.1)] *)
Definition jitter : world -> Q * world :=
  fun w => (uniform 0%Q (1 # 10)%Q (random (draws w)),
            MkWorld (events w) (gets w) (S (draws w))).

(** [time.sleep(delay)], for a delay that [time.sleep] takes: one that is
    not negative and within its range (it raises [ValueError] or
    [OverflowError] otherwise; the statements about the retrying GET that
    range over its parameters keep to [backoff_in_range]). *)
Definition sleep (delay : Q) (w : world) : world :=
  MkWorld (events w ++ [EvSleep delay]) (gets w) (draws w).

Definition str_last_error (last_error : option string) : string :=
  match last_error with
  | None => "None"
  | Some msg => msg
  end.

(** The body of [for attempt in range(max_retries)], over the values of
    the range that are still to come.  The delay is computed over the
    rationals: this is the float arithmetic of the source up to rounding as
    long as [2 ** attempt] fits a float and the delay stays moderate, which
    [backoff_in_range] ensures and the defaults satisfy. *)
Fixpoint retry_loop (todo : list Z) (r : request) (max_retries : Z)
    (base_delay : Q) (last_error : option string) (w : world) : json * world :=
  match todo with
  | [] => (JObj [("success", JBool false);
                 ("error", JStr (str_last_error last_error))], w)
  | attempt :: rest =>
      match session_get r w with
      | (Responded body, w1) =>
          (JObj [("success", JBool true); ("results", body)], w1)
      | (Failed msg, w1) =>
          if (attempt <? max_retries - 1)%Z then
            let (j, w2) := jitter w1 in
            let delay := (base_delay * inject_Z (2 ^ attempt) + j)%Q in
            retry_loop rest r max_retries base_delay (Some msg) (sleep delay w2)
          else
            retry_loop rest r max_retries base_delay (Some msg) w1
      end
  end.

Definition _make_request_with_retry (r : request) (max_retries : Z)
    (base_delay : Q) : M json :=
  fun w =>
    let (envelope, w') := retry_loop (range max_retries) r max_retries base_delay None w in
    (Ok envelope, w').

Definition default_max_retries : Z := 3.
Definition default_base_delay : Q := 1%Q.

Definition get_game_details (game_id : json) : M json :=
  let params := [("key", rawg_api_key); ("exclude_additions", JBool true)] in
  _make_request_with_retry
    (MkRequest (RAWG_GAMES_API_BASE_URL ++ "/" ++ py_str game_id) params)
    default_max_retries default_base_delay.

Definition search_game_by_name (game_name : json) : M json :=
  let search_params :=
    [("key", rawg_api_key); ("search", game_name); ("exclude_additions", JBool true)] in
  _make_request_with_retry
    (MkRequest RAWG_GAMES_API_BASE_URL search_params)
    default_max_retries default_base_delay.

(** [",".join(str(id) for id in ids)] *)
Definition join_ids (ids : list Z) : string :=
  join_strs "," (map (fun id => py_str (JInt id)) ids).

(** [if ids: search_params[key] = join_ids ids] *)
Definition add_ids (key : string) (ids : list Z)
    (search_params : list (string * json)) : list (string * json) :=
  match ids with
  | [] => search_params
  | _ => search_params ++ [(key, JStr (join_ids ids))]
  end.

(** [if slugs: search_params[key] = ",".join(slugs)] *)
Definition add_slugs (key : string) (slugs : list json)
    (search_params : list (string * json)) : res (list (string * json)) :=
  match slugs with
  | [] => Ok search_params
  | _ => joined <-- join "," slugs ;; Ok (search_params ++ [(key, JStr joined)])
  end.

(** [if v is not None: search_params[key] = v] *)
Definition add_not_none (key : string) (v : json)
    (search_params : list (string * json)) : list (string * json) :=
  match v with
  | JNull => search_params
  | _ => search_params ++ [(key, v)]
  end.

Definition find_multiple_games_by_conditions
    (release_date_lower_bound release_date_upper_bound : json)
    (metacritic_lower_bound metacritic_upper_bound : json)
    (page_size title : json)
    (parent_platform_ids platform_ids store_ids : list Z)
    (developers publishers genres tags : list json)
    (ordering : json) : M json :=
  let search_params :=
    [("key", rawg_api_key);
     ("page_size", page_size);
     ("dates", JStr (py_str release_date_lower_bound ++ "," ++ py_str release_date_upper_bound));
     ("metacritic", JStr (py_str metacritic_lower_bound ++ "," ++ py_str metacritic_upper_bound));
     ("exclude_additions", JBool true)] in
  let search_params := add_not_none "search" title search_params in
  let search_params := add_ids "parent_platforms" parent_platform_ids search_params in
  let search_params := add_ids "platforms" platform_ids search_params in
  let search_params := add_ids "stores" store_ids search_params in
  search_params <- lift (add_slugs "developers" developers search_params) ;;
  search_params <- lift (add_slugs "publishers" publishers search_params) ;;
  search_params <- lift (add_slugs "genres" genres search_params) ;;
  search_params <- lift (add_slugs "tags" tags search_params) ;;
  let search_params := add_not_none "ordering" ordering search_params in
  _make_request_with_retry
    (MkRequest RAWG_GAMES_API_BASE_URL search_params)
    default_max_retries default_base_delay.

End WithEnv.
End Database.


(* ===================================================================== *)
(** * classes.py *)
(* ===================================================================== *)

Module Classes.
Section WithEnv.
Context {E : Env}.

Record GameDescriptionResponse : Type := MkDescription {
  d_name : string;
  d_game_id : Z;
  d_description : string
}.

Record GameDetailsResponse : Type := MkDetails {
  name : string;
  game_id : Z;
  average_playtime : Z;
  platforms : list string;
  stores : list string;
  genres : list string;
  released : string;
  metacritic_score : option Z;
  esrb_rating : option string
}.

(** pydantic on a field of type [list[str]], [int | None], [str | None]. *)
Fixpoint validate_str_list (vs : list json) : res (list string) :=
  match vs with
  | [] => Ok []
  | v :: rest =>
      s <-- validate_str v ;;
      ss <-- validate_str_list rest ;;
      Ok (s :: ss)
  end.

Definition validate_opt_int (v : json) : res (option Z) :=
  match v with
  | JNull => Ok None
  | _ => z <-- validate_int v ;; Ok (Some z)
  end.

Definition validate_opt_str (v : json) : res (option string) :=
  match v with
  | JNull => Ok None
  | _ => s <-- validate_str v ;; Ok (Some s)
  end.

(** [GameDescriptionResponse.create_description_response_from_json] *)
Definition create_description_response_from_json (payload : json)
    : res GameDescriptionResponse :=
  n <-- get payload "name" ;;
  i <-- get payload "id" ;;
  d <-- get payload "description" ;;
  n' <-- validate_str (py_or n (JStr "")) ;;
  i' <-- validate_int (py_or i (JInt 0)) ;;
  d' <-- validate_str (py_or d (JStr "")) ;;
  Ok (MkDescription n' i' d').

(** [model_dump()] *)
Definition dump_description (g : GameDescriptionResponse) : json :=
  JObj [("name", JStr (d_name g));
        ("game_id", JInt (d_game_id g));
        ("description", JStr (d_description g))].

Definition dump_opt_int (o : option Z) : json :=
  match o with Some z => JInt z | None => JNull end.

Definition dump_opt_str (o : option string) : json :=
  match o with Some s => JStr s | None => JNull end.

Definition dump_strs (l : list string) : json := JList (map JStr l).

Definition dump_details (g : GameDetailsResponse) : json :=
  JObj [("name", JStr (name g));
        ("game_id", JInt (game_id g));
        ("average_playtime", JInt (average_playtime g));
        ("platforms", dump_strs (platforms g));
        ("stores", dump_strs (stores g));
        ("genres", dump_strs (genres g));
        ("released", JStr (released g));
        ("metacritic_score", dump_opt_int (metacritic_score g));
        ("esrb_rating", dump_opt_str (esrb_rating g))].

(** [[inner(e) for e in entries if inner(e)]] *)
Fixpoint comprehension (inner : json -> res json) (entries : list json)
    : res (list json) :=
  match entries with
  | [] => Ok []
  | e :: rest =>
      c <-- inner e ;;
      if truthy c then
        v <-- inner e ;;
        vs <-- comprehension inner rest ;;
        Ok (v :: vs)
      else comprehension inner rest
  end.

(** [entry.get(wrapper, {}).get("name")] *)
Definition wrapped_name (wrapper : string) (entry : json) : res json :=
  inner <-- get_default entry wrapper (JObj []) ;;
  get inner "name".

(** [entry.get("name")] *)
Definition plain_name (entry : json) : res json := get entry "name".

(** The names drawn from [result.get(field) or []]. *)
Definition entry_names (inner : json -> res json) (result : json) (field : string)
    : res (list json) :=
  entries <-- get result field ;;
  items <-- iter (py_or entries (JList [])) ;;
  comprehension inner items.

Definition esrb_name (result : json) : res json :=
  esrb_rating_data <-- get result "esrb_rating" ;;
  match esrb_rating_data with
  | JObj _ => get esrb_rating_data "name_en"
  | _ => Ok JNull
  end.

(** One pass through the body of [for result in search_results]. *)
Definition game_details_of (result : json) : res GameDetailsResponse :=
  platform_names <-- entry_names (wrapped_name "platform") result "platforms" ;;
  store_names <-- entry_names (wrapped_name "store") result "stores" ;;
  genre_names <-- entry_names plain_name result "genres" ;;
  esrb_rating_name <-- esrb_name result ;;
  n <-- get result "name" ;;
  i <-- get result "id" ;;
  p <-- get result "playtime" ;;
  playtime <-- py_int (py_or p (JInt 0)) ;;
  r <-- get result "released" ;;
  m <-- get result "metacritic" ;;
  (* cls(...) *)
  f_name <-- validate_str (py_or n (JStr "")) ;;
  f_game_id <-- validate_int (py_or i (JInt 0)) ;;
  f_average_playtime <-- validate_int (JInt playtime) ;;
  f_platforms <-- validate_str_list platform_names ;;
  f_stores <-- validate_str_list store_names ;;
  f_genres <-- validate_str_list genre_names ;;
  f_released <-- validate_str (py_or r (JStr "")) ;;
  f_metacritic_score <-- validate_opt_int m ;;
  f_esrb_rating <-- validate_opt_str esrb_rating_name ;;
  Ok (MkDetails f_name f_game_id f_average_playtime f_platforms f_stores f_genres
        f_released f_metacritic_score f_esrb_rating).

Fixpoint parse_games (results : list json) (parsed_games : list GameDetailsResponse)
    : res (list GameDetailsResponse) :=
  match results with
  | [] => Ok parsed_games
  | result :: rest =>
      game_details <-- game_details_of result ;;
      parse_games rest (parsed_games ++ [game_details])
  end.

(** [GameDetailsResponse.create_game_objects_from_search_results] *)
Definition create_game_objects_from_search_results (search_results : json)
    : res (list GameDetailsResponse) :=
  if negb (truthy search_results) then Ok []
  else
    results <-- iter search_results ;;
    parse_games results [].

End WithEnv.
End Classes.

(* ===================================================================== *)
(** * tools.py *)
(* ===================================================================== *)

Module Tools.
Section WithEnv.
Context {E : Env}.

(** [table.get(slug)] on one of the slug tables of [constants.py], whose
    keys are strings: an unhashable key raises, any other key that is not a
    string is absent. *)
Definition table_get (table : string -> option Z) (slug : json) : res (option Z) :=
  match slug with
  | JStr s => Ok (table s)
  | JList _ | JObj _ =>
      Raise (MkExn TypeError ("unhashable type: '" ++ type_name slug ++ "'"))
  | _ => Ok None
  end.

(** The loop shared by [_get_platform_ids], [_get_parent_platform_ids] and
    [_get_store_ids]. *)
Fixpoint collect_ids (table : string -> option Z) (slugs : list json) (ids : list Z)
    : res (list Z) :=
  match slugs with
  | [] => Ok ids
  | slug :: rest =>
      found <-- table_get table slug ;;
      match found with
      | Some id => collect_ids table rest (ids ++ [id])
      | None => collect_ids table rest ids
      end
  end.

Definition _get_platform_ids (slugs : list json) : res (list Z) :=
  collect_ids PLATFORM_SLUG_TO_ID slugs [].

Definition _get_parent_platform_ids (slugs : list json) : res (list Z) :=
  collect_ids PARENT_PLATFORM_SLUG_TO_ID slugs [].

Definition _get_store_ids (slugs : list json) : res (list Z) :=
  collect_ids STORE_SLUG_TO_ID slugs [].

Definition _normalize_list_param (param : json) : list json :=
  match param with
  | JNull => []
  | JList l => l
  | _ => [param]
  end.

Definition success (results : json) : json :=
  JObj [("success", JBool true); ("results", results)].

Definition failure (failure_reason : string) : json :=
  JObj [("success", JBool false); ("failure_reason", JStr failure_reason)].

Definition get_current_date : M json :=
  ret (success (JStr ("Today's date is " ++ today))).

Definition unknown_fetch_error : string :=
  "An unknown error occurred while fetching from the database.".

(** [return {"success": False, "failure_reason": f"Database error: {..}"}]
    with the message read from the client's envelope. *)
Definition database_error (db_response : json) (default : string) : M json :=
  error_message <- lift (get_default db_response "error" (JStr default)) ;;
  ret (failure ("Database error: " ++ py_str error_message)).

Definition get_game_description (game_id : json) : M json :=
  db_response <- Database.get_game_details game_id ;;
  rawg_payload <- lift (get db_response "results") ;;
  ok <- lift (get db_response "success") ;;
  if negb (truthy ok) || negb (truthy rawg_payload) then
    database_error db_response unknown_fetch_error
  else
    try_except
      (response_object <- lift (Classes.create_description_response_from_json rawg_payload) ;;
       ret (success (Classes.dump_description response_object)))
      (fun error => ret (failure ("Parsing error: " ++ exn_msg error))).

(** [(db_response or {}).get("results", {}).get("results")] *)
Definition nested_results (db_response : json) : res json :=
  body <-- get_default (py_or db_response (JObj [])) "results" (JObj []) ;;
  get body "results".

Definition find_game_by_name (game_name : json) : M json :=
  db_response <- Database.search_game_by_name game_name ;;
  rawg_payload <- lift (nested_results db_response) ;;
  ok <- lift (get db_response "success") ;;
  if negb (truthy ok) || negb (truthy rawg_payload) then
    database_error db_response unknown_fetch_error
  else
    game_objects <- lift (Classes.create_game_objects_from_search_results rawg_payload) ;;
    match game_objects with
    | [] => ret (failure "Failed to parse database results.")
    | _ =>
        let serialized_games := map Classes.dump_details (firstn 3 game_objects) in
        ret (success (JList serialized_games))
    end.

(** The parameters of [find_multiple_games], after the call has bound them. *)
Record filters : Type := MkFilters {
  num_results : json;
  title : json;
  parent_platforms : json;
  platforms : json;
  stores : json;
  developers : json;
  publishers : json;
  genres : json;
  tags : json;
  release_date_lower_bound : json;
  release_date_upper_bound : json;
  metacritic_lower_bound : json;
  metacritic_upper_bound : json;
  ordering : json
}.

(** What the body of [find_multiple_games] does once its seven list
    parameters have been rebound to lists. *)
Definition find_multiple_games_normalized
    (a : filters)
    (parent_platforms platforms stores developers publishers genres tags : list json)
    : M json :=
  parent_platform_ids <- lift (_get_parent_platform_ids parent_platforms) ;;
  platform_ids <- lift (_get_platform_ids platforms) ;;
  store_ids <- lift (_get_store_ids stores) ;;
  db_response <-
    Database.find_multiple_games_by_conditions
      (py_or (release_date_lower_bound a) (JStr "1800-01-01"))
      (py_or (release_date_upper_bound a) (JStr "3000-01-01"))
      (match metacritic_lower_bound a with JNull => JInt 0 | v => v end)
      (match metacritic_upper_bound a with JNull => JInt 100 | v => v end)
      (num_results a) (title a)
      parent_platform_ids platform_ids store_ids
      developers publishers genres tags
      (ordering a) ;;
  rawg_payload <- lift (nested_results db_response) ;;
  ok <- lift (get db_response "success") ;;
  if negb (truthy ok) || negb (truthy rawg_payload) then
    database_error db_response "Unknown database error."
  else
    game_objects <- lift (Classes.create_game_objects_from_search_results rawg_payload) ;;
    match game_objects with
    | [] => ret (failure "Failed to parse database results.")
    | _ =>
        let serialized_games := map Classes.dump_details game_objects in
        ret (success (JList serialized_games))
    end.

Definition find_multiple_games (a : filters) : M json :=
  let parent_platforms := _normalize_list_param (parent_platforms a) in
  let platforms := _normalize_list_param (platforms a) in
  let stores := _normalize_list_param (stores a) in
  let developers := _normalize_list_param (developers a) in
  let publishers := _normalize_list_param (publishers a) in
  let genres := _normalize_list_param (genres a) in
  let tags := _normalize_list_param (tags a) in
  find_multiple_games_normalized a
    parent_platforms platforms stores developers publishers genres tags.

(** The names of the tools declared in [VIDEO_GAME_TOOLS]. *)
Definition VIDEO_GAME_TOOLS : list string :=
  ["get_current_date"; "find_game_by_name"; "find_multiple_games"].

End WithEnv.
End Tools.

(* ===================================================================== *)
(** * app.py *)
(* ===================================================================== *)

Module App.
Section WithEnv.
Context {E : Env}.

Definition mem (k : string) (l : list string) : bool := existsb (String.eqb k) l.

(** Binding of keyword arguments to a signature: every keyword must name a
    parameter and every parameter without default must be given.  The
    exception class is the interpreter's; the message texts follow its
    wording for one offending keyword or one missing parameter and are not
    meant to match it letter for letter in every version. *)
Definition check_kwargs (fname : string) (parameters required : list string)
    (kwargs : list (string * json)) : res unit :=
  match find (fun kv => negb (mem (fst kv) parameters)) kwargs with
  | Some (k, _) =>
      Raise (MkExn TypeError
               (fname ++ "() got an unexpected keyword argument '" ++ k ++ "'"))
  | None =>
      match find (fun p => negb (mem p (map fst kwargs))) required with
      | Some p =>
          Raise (MkExn TypeError
                   (fname ++ "() missing 1 required positional argument: '" ++ p ++ "'"))
      | None => Ok tt
      end
  end.

Definition arg (kwargs : list (string * json)) (p : string) (default : json) : json :=
  match assoc p kwargs with Some v => v | None => default end.

Definition call_get_current_date (kwargs : list (string * json)) : M json :=
  _ <- lift (check_kwargs "get_current_date" [] [] kwargs) ;;
  Tools.get_current_date.

Definition call_get_game_description (kwargs : list (string * json)) : M json :=
  _ <- lift (check_kwargs "get_game_description" ["game_id"] ["game_id"] kwargs) ;;
  Tools.get_game_description (arg kwargs "game_id" JNull).

Definition call_find_game_by_name (kwargs : list (string * json)) : M json :=
  _ <- lift (check_kwargs "find_game_by_name" ["game_name"] ["game_name"] kwargs) ;;
  Tools.find_game_by_name (arg kwargs "game_name" JNull).

Definition filter_names : list string :=
  ["num_results"; "title"; "parent_platforms"; "platforms"; "stores"; "developers";
   "publishers"; "genres"; "tags"; "release_date_lower_bound";
   "release_date_upper_bound"; "metacritic_lower_bound"; "metacritic_upper_bound";
   "ordering"].

Definition filters_of (kwargs : list (string * json)) : Tools.filters :=
  Tools.MkFilters
    (arg kwargs "num_results" (JInt 5))
    (arg kwargs "title" JNull)
    (arg kwargs "parent_platforms" JNull)
    (arg kwargs "platforms" JNull)
    (arg kwargs "stores" JNull)
    (arg kwargs "developers" JNull)
    (arg kwargs "publishers" JNull)
    (arg kwargs "genres" JNull)
    (arg kwargs "tags" JNull)
    (arg kwargs "release_date_lower_bound" JNull)
    (arg kwargs "release_date_upper_bound" JNull)
    (arg kwargs "metacritic_lower_bound" JNull)
    (arg kwargs "metacritic_upper_bound" JNull)
    (arg kwargs "ordering" JNull).

Definition call_find_multiple_games (kwargs : list (string * json)) : M json :=
  _ <- lift (check_kwargs "find_multiple_games" filter_names [] kwargs) ;;
  Tools.find_multiple_games (filters_of kwargs).

Definition non_empty_str (s : string) : pyobj :=
  if String.eqb s "" then PyFalsy else PyNotCallable "str".

(** [globals().get(tool_name)] in [app.py]: the names the module imports
    ([json], [gradio as gr], [openai], [SYSTEM_PROMPT]) and the public names
    that [from tools import *] brings in.  The four tool functions, the
    modules, the shared [DATABASE] object and the [VIDEO_GAME_TOOLS] list are
    spelled out; every other name ([chat], [handle_tool_calls], the pydantic
    classes, [Any], the tables of [constants.py], the module attributes such
    as [__name__]) is looked up in [other_globals]. *)
Definition globals_get (tool_name : string) : option pyobj :=
  if String.eqb tool_name "get_current_date" then Some (PyCallable call_get_current_date)
  else if String.eqb tool_name "get_game_description" then Some (PyCallable call_get_game_description)
  else if String.eqb tool_name "find_game_by_name" then Some (PyCallable call_find_game_by_name)
  else if String.eqb tool_name "find_multiple_games" then Some (PyCallable call_find_multiple_games)
  else if mem tool_name ["json"; "gr"; "openai"; "datetime"] then Some (PyNotCallable "module")
  else if String.eqb tool_name "DATABASE" then Some (PyNotCallable "Database")
  else if String.eqb tool_name "VIDEO_GAME_TOOLS" then Some (PyNotCallable "list")
  else if String.eqb tool_name "SYSTEM_PROMPT" then Some (non_empty_str SYSTEM_PROMPT)
  else other_globals tool_name.

(** The conditional call of the looked-up [tool] with keyword arguments
    [arguments], [{}] when [tool] is falsy. *)
Definition invoke (tool : option pyobj) (arguments : json) : M json :=
  match tool with
  | None | Some PyFalsy => ret (JObj [])
  | Some (PyNotCallable type) =>
      throw (MkExn TypeError ("'" ++ type ++ "' object is not callable"))
  | Some (PyCallable call) =>
      match arguments with
      | JObj kwargs => call kwargs
      | _ =>
          throw (MkExn TypeError
                   ("argument after ** must be a mapping, not " ++ type_name arguments))
      end
  end.

(** One pass through the body of [for tool_call in tool_calls]: the turn
    that [results.append] adds. *)
Definition handle_tool_call (tc : tool_call) : M turn :=
  let tool_name := tc_name tc in
  arguments <- lift (json_loads (tc_arguments tc)) ;;
  let tool := globals_get tool_name in
  result <- invoke tool arguments ;;
  ret (ToolResult (json_dumps result) (tc_id tc)).

Fixpoint handle_tool_calls_from (tool_calls : list tool_call) (results : list turn)
    : M (list turn) :=
  match tool_calls with
  | [] => ret results
  | tc :: rest =>
      t <- handle_tool_call tc ;;
      handle_tool_calls_from rest (results ++ [t])
  end.

Definition handle_tool_calls (tool_calls : option (list tool_call)) : M (list turn) :=
  match tool_calls with
  | None => throw (MkExn TypeError "'NoneType' object is not iterable")
  | Some tcs => handle_tool_calls_from tcs []
  end.

Definition newline : string := String (ascii_of_nat 10) EmptyString.

Definition persona_reminder : string :=
  "REMINDER: Maintain your persona. Let your gaming knowledge gush out with references, Easter eggs, deep-cut trivia, and self-aware nerd humor. Use ample asterisk actions.".

Definition initial_messages (message : string) (history : list turn) : list turn :=
  [RoleContent "system" SYSTEM_PROMPT]
  ++ history
  ++ [RoleContent "user" (message ++ newline ++ newline ++ persona_reminder)].

(** The state of one [chat] call when it stops: how it stopped, the
    conversation as it then is, and the world. *)
Record stop : Type := MkStop {
  returned : res (option string);
  conversation : list turn;
  final_world : world
}.

(** [while not done: ...] followed by the [return]; [None] when [fuel]
    rounds were not enough for the model to stop asking for tools. *)
Fixpoint chat_loop (fuel : nat) (messages : list turn) (w : world) : option stop :=
  match fuel with
  | O => None
  | S fuel' =>
      match llm messages with
      | Raise e => Some (MkStop (Raise e) messages w)
      | Ok response =>
          if String.eqb (finish_reason response) "tool_calls" then
            let message := r_message response in
            match handle_tool_calls (tool_calls message) w with
            | (Raise e, w') => Some (MkStop (Raise e) messages w')
            | (Ok results, w') =>
                chat_loop fuel' ((messages ++ [ModelMessage message]) ++ results) w'
            end
          else
            Some (MkStop (Ok (content (r_message response))) messages w)
      end
  end.

Definition chat (fuel : nat) (message : string) (history : list turn) (w : world)
    : option stop :=
  chat_loop fuel (initial_messages message history) w.

End WithEnv.
End App.

(* ===================================================================== *)
(** * A small concrete environment, to run the program on examples *)
(* ===================================================================== *)

Module Demo.

Definition dquote : string := String (ascii_of_nat 34) EmptyString.

Definition quote (s : string) : string := dquote ++ s ++ dquote.

(** A plain serializer (no escaping), standing in for [json.dumps]. *)
Fixpoint dumps (v : json) : string :=
  match v with
  | JNull => "null"
  | JBool true => "true"
  | JBool false => "false"
  | JInt z => NilZero.string_of_int (Z.to_int z)
  | JStr s => quote s
  | JList l => "[" ++ join_strs ", " (map dumps l) ++ "]"
  | JObj kv =>
      "{" ++ join_strs ", "
               (map (fun p => match p with (k, x) => (quote k ++ ": " ++ dumps x)%string end) kv)
          ++ "}"
  end.

(** A decoder that knows the few argument strings the examples use. *)
Definition loads (s : string) : res json :=
  if String.eqb s "{}" then Ok (JObj [])
  else if String.eqb s "{'game_name': 'Celeste'}" then Ok (JObj [("game_name", JStr "Celeste")])
  else if String.eqb s "{'game_id': 7}" then Ok (JObj [("game_id", JInt 7)])
  else Raise (MkExn JSONDecodeError "Expecting value").

Definition strict_str (v : json) : res string :=
  match v with
  | JStr s => Ok s
  | _ => Raise (MkExn ValidationError "Input should be a valid string")
  end.

Definition strict_int (v : json) : res Z :=
  match v with
  | JInt z => Ok z
  | _ => Raise (MkExn ValidationError "Input should be a valid integer")
  end.

Definition no_int (s : string) : res Z :=
  Raise (MkExn ValueError ("invalid literal for int() with base 10: '" ++ s ++ "'")).

Definition slugs (s : string) : option Z :=
  if String.eqb s "pc" then Some 4%Z
  else if String.eqb s "playstation5" then Some 187%Z
  else None.

(** The [n]-th GET gets the [n]-th outcome of [script]; later ones time out. *)
Definition scripted (script : list outcome) (n : nat) (r : request) : outcome :=
  nth n script (Failed "timed out").

Definition env (script : list outcome) (model : list turn -> res response) : Env :=
  {| json_loads := loads;
     json_dumps := dumps;
     container_str := dumps;
     int_of_str := no_int;
     validate_str := strict_str;
     validate_int := strict_int;
     rawg_api_key := JStr "k";
     today := "2025-01-01";
     SYSTEM_PROMPT := "You are NerdBot.";
     PARENT_PLATFORM_SLUG_TO_ID := slugs;
     PLATFORM_SLUG_TO_ID := slugs;
     STORE_SLUG_TO_ID := slugs;
     other_globals := fun _ => None;
     http_get := scripted script;
     random := fun _ => (1 # 4)%Q;
     llm := model |}.

Definition w0 : world := MkWorld [] 0 0.

Definition game (n : string) (id : Z) : json :=
  JObj [("id", JInt id); ("name", JStr n);
        ("platforms", JList [JObj [("platform", JObj [("name", JStr "PC")])]]);
        ("esrb_rating", JNull)].

Definition search_body (games : list json) : json :=
  JObj [("count", JInt (Z.of_nat (length games))); ("results", JList games)].

Definition final_answer (text : string) : response :=
  MkResponse "stop" (MkMessage (Some text) None).

Definition ask_tools (tcs : list tool_call) : response :=
  MkResponse "tool_calls" (MkMessage None (Some tcs)).

(** A model that asks for [tcs] once, on the opening conversation, and
    answers [text] as soon as the conversation has grown. *)
Definition one_round (tcs : list tool_call) (text : string) (messages : list turn)
    : res response :=
  if (length messages <=? 2)%nat then Ok (ask_tools tcs) else Ok (final_answer text).

Definition silent (messages : list turn) : res response := Ok (final_answer "").

(** The provider cannot be reached. *)
Definition offline : Env := env [] silent.

(** Two transport failures, then the provider answers with [body]. *)
Definition flaky (body : json) : Env :=
  env [Failed "connection reset"; Failed "read timed out"; Responded body] silent.

Definition flaky_errors (i : nat) : string :=
  match i with O => "connection reset" | _ => "read timed out" end.

(** The provider answers the first GET with [body]. *)
Definition online (body : json) : Env := env [Responded body] silent.

Definition probe : request :=
  MkRequest "https://api.rawg.io/api/games" [("key", JStr "k"); ("search", JStr "Celeste")].

Definition four_games : list json :=
  [game "Celeste" 1; game "Celeste Classic" 2; game "Celeste 64" 3; game "Celestial" 4].

Definition date_call : tool_call := MkToolCall "call_1" "get_current_date" "{}".

(** The model asks for the date once, then answers. *)
Definition dated : Env := env [] (one_round [date_call] "It is 2025.").

(** Where [chat] stops with that model: one tool round, then the answer. *)
Definition dated_stop : App.stop :=
  App.MkStop (Ok (Some "It is 2025."))
    (@App.initial_messages dated "What day is it?" []
     ++ [ModelMessage (MkMessage None (Some [date_call]));
         ToolResult (dumps (Tools.success (JStr "Today's date is 2025-01-01"))) "call_1"])
    w0.

(** Records with missing and null fields, and entries without a name. *)
Definition sparse_records : list json :=
  [JObj [];
   JObj [("name", JNull);
         ("playtime", JInt 12);
         ("platforms", JList [JObj [];
                              JObj [("platform", JObj [("name", JStr "PC")])];
                              JObj [("platform", JObj [("slug", JStr "ps5")])]]);
         ("genres", JList [JObj [("name", JNull)]; JObj [("name", JStr "Platformer")]]);
         ("esrb_rating", JObj [("name_en", JStr "Everyone")])];
   game "Celeste" 1].

(** A record whose platform entries are bare strings. *)
Definition unwrapped_record : json :=
  JObj [("name", JStr "Celeste"); ("platforms", JList [JStr "PC"])].

(** A record whose platform entry has a null wrapper. *)
Definition null_wrapper_record : json :=
  JObj [("name", JStr "Celeste"); ("platforms", JList [JObj [("platform", JNull)]])].

Definition unknown_fetch_failure : json :=
  JObj [("success", JBool false);
        ("failure_reason",
         JStr "Database error: An unknown error occurred while fetching from the database.")].


(** A model that asks for the date in every response. *)
Definition insatiable (messages : list turn) : res response := Ok (ask_tools [date_call]).

Definition hungry : Env := env [] insatiable.

(** A round whose second call names the [json] module. *)
Definition module_call : tool_call := MkToolCall "call_2" "json" "{}".

Definition broken : Env :=
  env [] (one_round [date_call; module_call; date_call] "not reached").

Definition date_turn : turn :=
  ToolResult (dumps (Tools.success (JStr "Today's date is 2025-01-01"))) "call_1".

End Demo.

(* ===================================================================== *)
(** * Vocabulary of the statements *)
(* ===================================================================== *)

Section Vocabulary.
Context {E : Env}.

(** The jitter that the [n]-th random draw of the process yields. *)
Definition jitter_of_draw (n : nat) : Q := uniform 0%Q (1 # 10)%Q (random n).

(** [base_delay * 2^(k-2) + jitter], for the 1-indexed attempt [k]. *)
Definition backoff_delay (base_delay : Q) (k : nat) (jitter : Q) : Q :=
  (base_delay * inject_Z (2 ^ Z.of_nat (k - 2)) + jitter)%Q.

(** The delay before attempt [k] of a call that starts when [d0] random
    numbers have been drawn. *)
Definition delay_before (base_delay : Q) (d0 k : nat) : Q :=
  backoff_delay base_delay k (jitter_of_draw (d0 + (k - 2))).

(** What attempt [k >= 2] adds to the log: the sleep, then the GET. *)
Definition retry_round (r : request) (base_delay : Q) (d0 k : nat) : list event :=
  [EvSleep (delay_before base_delay d0 k); EvGet r].

(** The log of a call that makes [n] attempts. *)
Definition attempts_trace (r : request) (base_delay : Q) (d0 n : nat) : list event :=
  match n with
  | O => []
  | S m => EvGet r :: flat_map (retry_round r base_delay d0) (seq 2 m)
  end.

(** What a failed attempt [k] that is not the last adds to the log: the
    GET, then the sleep before attempt [k + 1]. *)
Definition failed_round (r : request) (base_delay : Q) (d0 k : nat) : list event :=
  [EvGet r; EvSleep (delay_before base_delay d0 (S k))].

Definition is_get (e : event) : bool :=
  match e with EvGet _ => true | EvSleep _ => false end.

Definition count_gets (evs : list event) : nat := length (filter is_get evs).

Definition success_envelope (body : json) : json :=
  JObj [("success", JBool true); ("results", body)].

Definition error_envelope (msg : string) : json :=
  JObj [("success", JBool false); ("error", JStr msg)].

Definition is_str (v : json) : bool :=
  match v with JStr _ => true | _ => false end.

Definition is_int (v : json) : bool :=
  match v with JInt _ => true | _ => false end.

(** [a] with each of its seven list parameters replaced by the list that
    [_normalize_list_param] makes of it. *)
Definition listified (a : Tools.filters) : Tools.filters :=
  let norm p := JList (Tools._normalize_list_param p) in
  Tools.MkFilters
    (Tools.num_results a) (Tools.title a)
    (norm (Tools.parent_platforms a)) (norm (Tools.platforms a)) (norm (Tools.stores a))
    (norm (Tools.developers a)) (norm (Tools.publishers a)) (norm (Tools.genres a))
    (norm (Tools.tags a))
    (Tools.release_date_lower_bound a) (Tools.release_date_upper_bound a)
    (Tools.metacritic_lower_bound a) (Tools.metacritic_upper_bound a)
    (Tools.ordering a).




(** The conversation [final] is [messages] followed by whole tool rounds:
    each round is the model's answer to the conversation so far, asking for
    tools, then one [ToolResult] per requested call, in the order of the
    requests and tagged with their ids. *)
Inductive tool_rounds : list turn -> list turn -> Prop :=
| rounds_done (messages : list turn) : tool_rounds messages messages
| rounds_more (messages : list turn) (rsp : response) (tcs : list tool_call)
    (results final : list turn) :
    llm messages = Ok rsp ->
    finish_reason rsp = "tool_calls" ->
    tool_calls (r_message rsp) = Some tcs ->
    Forall2 (fun tc t => exists text, t = ToolResult text (tc_id tc)) tcs results ->
    tool_rounds (messages ++ ModelMessage (r_message rsp) :: results) final ->
    tool_rounds messages final.

(** ** The shape of provider records that the normalizer accepts *)

(** [d.get(k)] on a dict, [None] on anything else. *)
Definition field (d : json) (k : string) : json :=
  match d with
  | JObj kv => match assoc k kv with Some v => v | None => JNull end
  | _ => JNull
  end.

Definition falsy_or (ok : json -> bool) (v : json) : bool := negb (truthy v) || ok v.

Definition null_or (ok : json -> bool) (v : json) : bool :=
  match v with JNull => true | _ => ok v end.

(** An entry that carries its display name itself: a dict whose [name] is
    absent, falsy or a string. *)
Definition named (e : json) : bool :=
  match e with
  | JObj _ => falsy_or is_str (field e "name")
  | _ => false
  end.

(** An entry that carries its display name in a sub-object under
    [wrapper]: a dict in which [wrapper] is absent or is a [named] dict. *)
Definition wrapped (wrapper : string) (e : json) : bool :=
  match e with
  | JObj kv => match assoc wrapper kv with None => true | Some inner => named inner end
  | _ => false
  end.

(** Absent, falsy, or a list of entries each of which is [ok]. *)
Definition entries (ok : json -> bool) (v : json) : bool :=
  negb (truthy v) || match v with JList l => forallb ok l | _ => false end.

Definition esrb_shaped (v : json) : bool :=
  match v with
  | JObj _ => null_or is_str (field v "name_en")
  | _ => true
  end.

Definition shaped_record (result : json) : bool :=
  match result with
  | JObj _ =>
      falsy_or is_str (field result "name")
      && falsy_or is_int (field result "id")
      && falsy_or is_int (field result "playtime")
      && entries (wrapped "platform") (field result "platforms")
      && entries (wrapped "store") (field result "stores")
      && entries named (field result "genres")
      && falsy_or is_str (field result "released")
      && null_or is_int (field result "metacritic")
      && esrb_shaped (field result "esrb_rating")
  | _ => false
  end.

Definition shaped_description (payload : json) : bool :=
  match payload with
  | JObj _ =>
      falsy_or is_str (field payload "name")
      && falsy_or is_int (field payload "id")
      && falsy_or is_str (field payload "description")
  | _ => false
  end.

(** ** The canonical record, in the words of the specification *)

Definition str_or_empty (v : json) : string :=
  match v with JStr s => s | _ => "" end.

Definition int_or_zero (v : json) : Z :=
  match v with JInt z => z | _ => 0%Z end.

Definition int_or_absent (v : json) : option Z :=
  match v with JInt z => Some z | _ => None end.

Definition str_or_absent (v : json) : option string :=
  match v with JStr s => Some s | _ => None end.

(** The display name of an entry, when it has a non-empty one. *)
Definition display_name (e : json) : list string :=
  match field e "name" with
  | JStr s => if String.eqb s "" then [] else [s]
  | _ => []
  end.

(** The display names of the entries of a list, in order; entries without
    a name are dropped. *)
Definition display_names (unwrap : json -> json) (v : json) : list string :=
  match v with
  | JList l => flat_map (fun e => display_name (unwrap e)) l
  | _ => []
  end.

Definition normalized (result : json) : Classes.GameDetailsResponse :=
  Classes.MkDetails
    (str_or_empty (field result "name"))
    (int_or_zero (field result "id"))
    (int_or_zero (field result "playtime"))
    (display_names (fun e => field e "platform") (field result "platforms"))
    (display_names (fun e => field e "store") (field result "stores"))
    (display_names (fun e => e) (field result "genres"))
    (str_or_empty (field result "released"))
    (int_or_absent (field result "metacritic"))
    (str_or_absent (field (field result "esrb_rating") "name_en")).

Definition record_keys : list string :=
  ["name"; "id"; "playtime"; "platforms"; "stores"; "genres"; "released";
   "metacritic"; "esrb_rating"].

Definition default_details : Classes.GameDetailsResponse :=
  Classes.MkDetails "" 0%Z 0%Z [] [] [] "" None None.

Definition normalized_description (payload : json) : Classes.GameDescriptionResponse :=
  Classes.MkDescription
    (str_or_empty (field payload "name"))
    (int_or_zero (field payload "id"))
    (str_or_empty (field payload "description")).

(** The parameters of the retrying GET on which the embedding of its
    back-off is faithful: a base delay between zero and a minute and at
    most sixteen attempts, so that no delay is negative, every delay is far
    below what [time.sleep] takes and the float arithmetic of the delay is
    that of the rationals up to rounding.  The defaults, three attempts and
    one second, are of this kind. *)
Definition backoff_in_range (max_retries : Z) (base_delay : Q) : Prop :=
  (0 <= base_delay)%Q /\ (base_delay <= 60)%Q /\ (max_retries <= 16)%Z.

(** ** Further vocabulary *)

Definition is_sleep (e : event) : bool :=
  match e with EvSleep _ => true | EvGet _ => false end.

Definition count_sleeps (evs : list event) : nat := length (filter is_sleep evs).


Definition is_dict (v : json) : bool :=
  match v with JObj _ => true | _ => false end.

(** The ids of the slugs that a table knows, in the order of the slugs. *)
Definition known_ids (table : string -> option Z) (slugs : list string) : list Z :=
  flat_map (fun s => match table s with Some id => [id] | None => [] end) slugs.

(** The parameters that every multi-filter request starts with. *)
Definition base_params (a : Tools.filters) : list (string * json) :=
  [("key", rawg_api_key);
   ("page_size", Tools.num_results a);
   ("dates",
    JStr (py_str (py_or (Tools.release_date_lower_bound a) (JStr "1800-01-01"))
          ++ "," ++ py_str (py_or (Tools.release_date_upper_bound a) (JStr "3000-01-01"))));
   ("metacritic",
    JStr (py_str (match Tools.metacritic_lower_bound a with JNull => JInt 0 | v => v end)
          ++ "," ++
          py_str (match Tools.metacritic_upper_bound a with JNull => JInt 100 | v => v end)));
   ("exclude_additions", JBool true)].

(** The parameter names of the four tool functions. *)
Definition tool_parameters (tool_name : string) : list string :=
  if String.eqb tool_name "get_game_description" then ["game_id"]
  else if String.eqb tool_name "find_game_by_name" then ["game_name"]
  else if String.eqb tool_name "find_multiple_games" then App.filter_names
  else [].

(** The parameters that a multi-filter request may add to the base ones. *)
Definition optional_params : list string :=
  ["search"; "parent_platforms"; "platforms"; "stores"; "developers"; "publishers";
   "genres"; "tags"; "ordering"].

(** What [find_multiple_games] does with the envelope of the client. *)
Definition read_matches (db_response : json) : M json :=
  rawg_payload <- lift (Tools.nested_results db_response) ;;
  ok <- lift (get db_response "success") ;;
  if negb (truthy ok) || negb (truthy rawg_payload) then
    Tools.database_error db_response "Unknown database error."
  else
    game_objects <- lift (Classes.create_game_objects_from_search_results rawg_payload) ;;
    match game_objects with
    | [] => ret (Tools.failure "Failed to parse database results.")
    | _ => ret (Tools.success (JList (map Classes.dump_details game_objects)))
    end.

Definition tool_functions : list string :=
  ["get_current_date"; "get_game_description"; "find_game_by_name"; "find_multiple_games"].

End Vocabulary.

(* ===================================================================== *)
(** * The retrying GET *)
(* ===================================================================== *)

Section DatabaseFacts.
Context {E : Env}.
Import Database.

Variables (r : request) (max_retries : Z) (base_delay : Q).

Lemma count_gets_app (xs ys : list event) :
  count_gets (xs ++ ys) = count_gets xs + count_gets ys.
Proof.
  unfold count_gets. rewrite filter_app, length_app. reflexivity.
Qed.

Lemma count_gets_rounds (d0 a m : nat) :
  count_gets (flat_map (retry_round r base_delay d0) (seq a m)) = m.
Proof.
  revert a. induction m as [|m IH]; intros a; simpl.
  - reflexivity.
  - unfold count_gets in *. simpl. rewrite IH. reflexivity.
Qed.

Lemma count_gets_attempts (d0 n : nat) :
  count_gets (attempts_trace r base_delay d0 n) = n.
Proof.
  destruct n as [|m]; [reflexivity|].
  unfold attempts_trace.
  change (EvGet r :: ?l) with ([EvGet r] ++ l).
  rewrite count_gets_app, count_gets_rounds. reflexivity.
Qed.

(** A failed attempt that is not the last one: jitter, sleep, next GET. *)
Lemma retry_loop_step (a : nat) (rest : list Z) (last_error : option string)
    (w : world) (msg : string) :
  (Z.of_nat a < max_retries - 1)%Z ->
  http_get (gets w) r = Failed msg ->
  retry_loop (Z.of_nat a :: rest) r max_retries base_delay last_error w =
  retry_loop rest r max_retries base_delay (Some msg)
    (MkWorld ((events w ++ [EvGet r])
                ++ [EvSleep (base_delay * inject_Z (2 ^ Z.of_nat a)
                             + jitter_of_draw (draws w))%Q])
             (S (gets w)) (S (draws w))).
Proof.
  intros Hlt Hfail. simpl. unfold session_get. rewrite Hfail.
  apply Z.ltb_lt in Hlt. rewrite Hlt. reflexivity.
Qed.

Lemma delay_before_next (d0 a : nat) :
  delay_before base_delay d0 (S (S a)) =
  (base_delay * inject_Z (2 ^ Z.of_nat a) + jitter_of_draw (d0 + a))%Q.
Proof.
  unfold delay_before, backoff_delay.
  replace (S (S a) - 2) with a by lia. reflexivity.
Qed.

Lemma world_eta (w : world) :
  MkWorld (events w ++ []) (gets w + 0) (draws w + 0) = w.
Proof.
  destruct w as [ev g d]. simpl. rewrite app_nil_r, !Nat.add_0_r. reflexivity.
Qed.

(** [n] failed attempts in a row, none of them the last of the range. *)
Lemma retry_loop_failures (n : nat) :
  forall (a d0 : nat) (rest : list Z) (last_error : option string) (w : world)
         (msgs : nat -> string),
    (Z.of_nat (a + n) <= max_retries - 1)%Z ->
    draws w = d0 + a ->
    (forall i, i < n -> http_get (gets w + i) r = Failed (msgs i)) ->
    retry_loop (map Z.of_nat (seq a n) ++ rest) r max_retries base_delay last_error w =
    retry_loop rest r max_retries base_delay
      (match n with O => last_error | S m => Some (msgs m) end)
      (MkWorld (events w ++ flat_map (failed_round r base_delay d0) (seq (S a) n))
               (gets w + n) (draws w + n)).
Proof.
  induction n as [|n IH]; intros a d0 rest last_error w msgs Hmax Hd Hfail.
  - simpl seq. simpl map. simpl flat_map. rewrite world_eta. reflexivity.
  - simpl seq. simpl map. simpl app.
    rewrite (@retry_loop_step a _ last_error w (msgs 0)).
    + rewrite (IH (S a) d0 rest (Some (msgs 0)) _ (fun i => msgs (S i))).
      * simpl events. simpl gets. simpl draws.
        simpl flat_map. unfold failed_round at 2.
        rewrite delay_before_next, <- Hd.
        rewrite <- !app_assoc. simpl app.
        replace (S (gets w) + n) with (gets w + S n) by lia.
        replace (S (draws w) + n) with (draws w + S n) by lia.
        destruct n; reflexivity.
      * lia.
      * simpl. lia.
      * intros i Hi. simpl gets.
        replace (S (gets w) + i) with (gets w + S i) by lia.
        apply Hfail. lia.
    + lia.
    + rewrite <- (Hfail 0) by lia. f_equal. lia.
Qed.

Lemma rounds_shift (d0 : nat) (n : nat) :
  forall a,
    flat_map (failed_round r base_delay d0) (seq a n) ++ [EvGet r] =
    EvGet r :: flat_map (retry_round r base_delay d0) (seq (S a) n).
Proof.
  induction n as [|n IH]; intros a; simpl.
  - reflexivity.
  - rewrite IH. reflexivity.
Qed.

Lemma range_split (n : nat) :
  (Z.of_nat n < max_retries)%Z ->
  range max_retries =
  map Z.of_nat (seq 0 n) ++ Z.of_nat n :: map Z.of_nat (seq (S n) (Z.to_nat max_retries - S n)).
Proof.
  intros Hlt. unfold range.
  replace (Z.to_nat max_retries) with (n + S (Z.to_nat max_retries - S n)) at 1 by lia.
  rewrite seq_app, map_app. reflexivity.
Qed.

(** C1. [N < max_retries] transport failures followed by a response, for
    parameters in the range of the back-off: the retrying GET returns
    [{success: True, results: body}] after exactly [N + 1] GETs, the last
    event of the call being the GET that succeeded. *)
Theorem retry_returns_first_success (w : world) (N : nat) (msgs : nat -> string)
    (body : json) :
  backoff_in_range max_retries base_delay ->
  (Z.of_nat N < max_retries)%Z ->
  (forall i, i < N -> http_get (gets w + i) r = Failed (msgs i)) ->
  http_get (gets w + N) r = Responded body ->
  _make_request_with_retry r max_retries base_delay w =
    (Ok (success_envelope body),
     MkWorld (events w ++ attempts_trace r base_delay (draws w) (S N))
             (gets w + S N) (draws w + N))
  /\ count_gets (attempts_trace r base_delay (draws w) (S N)) = S N
  /\ last (attempts_trace r base_delay (draws w) (S N)) (EvSleep 0%Q) = EvGet r.
Proof.
  intros _ Hlt Hfail Hok. split; [|split].
  - unfold _make_request_with_retry.
    rewrite (range_split N Hlt).
    rewrite (@retry_loop_failures N 0 (draws w) _ None w msgs); try lia; try assumption.
    simpl retry_loop. unfold session_get. simpl gets. rewrite Hok.
    simpl events. simpl draws.
    rewrite <- app_assoc, rounds_shift.
    unfold success_envelope, attempts_trace.
    replace (S (gets w + N)) with (gets w + S N) by lia. reflexivity.
  - apply count_gets_attempts.
  - unfold attempts_trace. rewrite <- rounds_shift. apply last_last.
Qed.

(** The retrying GET when every attempt of the range fails: the envelope
    carries [str(last_error)] under the key [error]. *)
Lemma retry_all_failed (w : world) (msgs : nat -> string) :
  (forall i, i < Z.to_nat max_retries -> http_get (gets w + i) r = Failed (msgs i)) ->
  _make_request_with_retry r max_retries base_delay w =
    (Ok (error_envelope
           (match Z.to_nat max_retries with O => "None" | S m => msgs m end)),
     MkWorld (events w ++ attempts_trace r base_delay (draws w) (Z.to_nat max_retries))
             (gets w + Z.to_nat max_retries)
             (draws w + (Z.to_nat max_retries - 1))).
Proof.
  intros Hfail. unfold _make_request_with_retry.
  destruct (Z.to_nat max_retries) as [|m] eqn:Hm.
  - unfold range. rewrite Hm. simpl. rewrite world_eta. reflexivity.
  - rewrite (@range_split m) by lia.
    rewrite (@retry_loop_failures m 0 (draws w) _ None w msgs); try lia.
    + replace (Z.to_nat max_retries - S m) with 0 by lia.
      simpl retry_loop. unfold session_get. simpl gets.
      rewrite (Hfail m) by lia.
      replace (Z.of_nat m <? max_retries - 1)%Z with false
        by (symmetry; apply Z.ltb_ge; lia).
      simpl events. simpl draws.
      rewrite <- app_assoc, rounds_shift.
      unfold error_envelope, attempts_trace, str_last_error.
      replace (S (gets w + m)) with (gets w + S m) by lia.
      replace (S m - 1) with m by lia.
      destruct m; reflexivity.
    + intros i Hi. apply Hfail. lia.
Qed.

(** C2, as the code has it. For parameters in the range of the back-off,
    when each of the [max_retries] attempts raises a transport error, the retrying GET returns, without raising, the
    envelope [{success: False, error: str(last_error)}] after exactly
    [max_retries] GETs; the message is that of the last failure (the text
    [None] when the range of attempts is empty). *)
Theorem retry_exhausted_error_envelope (w : world) (msgs : nat -> string) :
  backoff_in_range max_retries base_delay ->
  (forall i, i < Z.to_nat max_retries -> http_get (gets w + i) r = Failed (msgs i)) ->
  exists w',
    _make_request_with_retry r max_retries base_delay w =
      (Ok (JObj [("success", JBool false);
                 ("error", JStr (match Z.to_nat max_retries with
                                 | O => "None"
                                 | S m => msgs m
                                 end))]), w')
    /\ gets w' = gets w + Z.to_nat max_retries
    /\ events w' = events w ++ attempts_trace r base_delay (draws w) (Z.to_nat max_retries)
    /\ count_gets (attempts_trace r base_delay (draws w) (Z.to_nat max_retries))
       = Z.to_nat max_retries.
Proof.
  intros _ Hfail. eexists. split; [|split; [|split]].
  - rewrite (retry_all_failed w msgs Hfail). reflexivity.
  - reflexivity.
  - reflexivity.
  - apply count_gets_attempts.
Qed.

(** The log that a call leaves, whatever the network does: some number
    [n] of attempts, at most [max_retries], each but the first preceded by
    its back-off sleep. *)
Lemma retry_loop_shape (m : nat) :
  forall (a d0 : nat) (last_error : option string) (w : world),
    Z.of_nat (a + m) = max_retries ->
    draws w = d0 + a ->
    exists n,
      n <= m /\ (0 < m -> 0 < n) /\
      events (snd (retry_loop (map Z.of_nat (seq a m)) r max_retries base_delay last_error w))
      = events w ++ match n with
                    | O => []
                    | S n' => flat_map (failed_round r base_delay d0) (seq (S a) n') ++ [EvGet r]
                    end.
Proof.
  induction m as [|m IH]; intros a d0 last_error w Hmax Hd.
  - exists 0. simpl. rewrite app_nil_r. repeat split; lia.
  - simpl seq. simpl map.
    destruct (http_get (gets w) r) as [msg|body] eqn:Hget.
    + destruct m as [|m'].
      * exists 1. simpl. unfold session_get. rewrite Hget.
        replace (Z.of_nat a <? max_retries - 1)%Z with false
          by (symmetry; apply Z.ltb_ge; lia).
        simpl. repeat split; lia.
      * rewrite (@retry_loop_step a _ last_error w msg) by (lia || assumption).
        edestruct (IH (S a) d0 (Some msg)) as (n & Hle & Hpos & Hev);
          [ | | rewrite Hev ]; [lia | simpl; lia | ].
        destruct n as [|n']; [exfalso; lia|].
        exists (S (S n')). split; [lia|]. split; [lia|].
        simpl events. simpl flat_map. unfold failed_round at 2.
        rewrite delay_before_next, <- Hd, <- !app_assoc. reflexivity.
    + exists 1. simpl. unfold session_get. rewrite Hget. simpl.
      repeat split; lia.
Qed.

Lemma pow2_succ (m : nat) :
  (inject_Z (2 ^ Z.of_nat (S m)) == 2 * inject_Z (2 ^ Z.of_nat m))%Q.
Proof.
  rewrite Nat2Z.inj_succ, Z.pow_succ_r by lia.
  rewrite inject_Z_mult. reflexivity.
Qed.

Lemma pow2_ge_1 (m : nat) : (1 <= inject_Z (2 ^ Z.of_nat m))%Q.
Proof.
  change 1%Q with (inject_Z 1). rewrite <- Zle_Qle.
  assert (0 < 2 ^ Z.of_nat m)%Z by (apply Z.pow_pos_nonneg; lia). lia.
Qed.

Lemma jitter_range (n : nat) :
  (0 <= random n)%Q /\ (random n < 1)%Q ->
  (0 <= jitter_of_draw n)%Q /\ (jitter_of_draw n < 1 # 10)%Q.
Proof.
  intros [H0 H1]. unfold jitter_of_draw, uniform. split; lra.
Qed.

End DatabaseFacts.

(* ===================================================================== *)
(** * The tool handlers *)
(* ===================================================================== *)

Section HandlerFacts.
Context {E : Env}.
Import Tools.












Lemma iter_truthy (v : json) (items : list json) :
  truthy v = true -> iter v = Ok items -> items <> [].
Proof.
  destruct v as [|b|z|s|l|kv]; simpl; try discriminate.
  - destruct s as [|c s]; [discriminate|].
    intros _ H. inversion H. discriminate.
  - destruct l; [discriminate|]. intros _ H. inversion H. discriminate.
  - destruct kv; [discriminate|]. intros _ H. inversion H. discriminate.
Qed.

Lemma parse_games_length (results : list json) :
  forall parsed_games games,
    Classes.parse_games results parsed_games = Ok games ->
    length games = length parsed_games + length results.
Proof.
  induction results as [|result results IH]; simpl; intros parsed_games games H.
  - inversion H. lia.
  - destruct (Classes.game_details_of result) as [g|e]; [|discriminate].
    simpl in H. rewrite (IH _ _ H), length_app. simpl. lia.
Qed.

(** The normalizer returns an empty list only for a falsy payload, so the
    branch of the handlers that reports a parse failure is never taken. *)
Lemma no_games_only_from_falsy (rawg_payload : json) :
  Classes.create_game_objects_from_search_results rawg_payload = Ok [] ->
  truthy rawg_payload = false.
Proof.
  unfold Classes.create_game_objects_from_search_results.
  destruct (truthy rawg_payload) eqn:Htruthy; [|reflexivity].
  simpl. destruct (iter rawg_payload) as [items|e] eqn:Hiter; [|discriminate].
  simpl. intros H. apply parse_games_length in H. simpl in H.
  destruct items; [|discriminate].
  exfalso. exact (iter_truthy rawg_payload Htruthy Hiter eq_refl).
Qed.

Lemma parse_failure_never_reported (game_name : json) (w : world) :
  fst (find_game_by_name game_name w) <> Ok (failure "Failed to parse database results.").
Proof.
  unfold find_game_by_name, bind, lift.
  destruct (Database.search_game_by_name game_name w) as [[db_response|e] w1];
    [|discriminate].
  destruct (nested_results db_response) as [rawg_payload|e]; [|discriminate].
  destruct (get db_response "success") as [ok|e]; [|discriminate].
  destruct (truthy rawg_payload) eqn:Htruthy.
  - destruct (negb (truthy ok)); simpl orb; cbv iota.
    + unfold database_error, bind, lift, ret.
      destruct (get_default db_response "error" _); discriminate.
    + destruct (Classes.create_game_objects_from_search_results rawg_payload)
        as [[|g gs]|e] eqn:Hparse; try discriminate.
      apply no_games_only_from_falsy in Hparse. congruence.
  - rewrite orb_true_r.
    unfold database_error, bind, lift, ret.
    destruct (get_default db_response "error" _); discriminate.
Qed.

Lemma database_error_inj (a b : string) :
  failure ("Database error: " ++ a) = failure ("Database error: " ++ b) -> a = b.
Proof.
  unfold failure. simpl. intros H. injection H as H. exact H.
Qed.

(** C3, as the code has it. The client succeeds and the provider's body
    holds an empty [results] list: [find_game_by_name] returns the failure
    envelope whose reason is [Database error: ] followed by the default
    message, the one used when the client's envelope has no [error] entry;
    it differs from the envelope of a transport failure exactly when the
    transport error's message is not that default text. *)
Theorem find_game_by_name_zero_matches (game_name : json) (w w' : world)
    (body : list (string * json)) :
  Database.search_game_by_name game_name w = (Ok (success_envelope (JObj body)), w') ->
  assoc "results" body = Some (JList []) ->
  find_game_by_name game_name w
  = (Ok (failure "Database error: An unknown error occurred while fetching from the database."),
     w')
  /\ (forall msg,
        msg <> "An unknown error occurred while fetching from the database." ->
        failure ("Database error: " ++ msg)
        <> failure "Database error: An unknown error occurred while fetching from the database.").
Proof.
  intros Hrun Hres. split.
  - unfold find_game_by_name, bind. rewrite Hrun.
    unfold success_envelope, nested_results, lift. simpl. rewrite Hres. reflexivity.
  - intros msg Hmsg Heq. apply Hmsg.
    apply (@database_error_inj msg unknown_fetch_error). exact Heq.
Qed.

Lemma first_three_length {A B} (f : A -> B) (l : list A) :
  length (map f (firstn 3 l)) <= 3.
Proof.
  rewrite length_map. apply firstn_le_length.
Qed.

(** C10. A successful [find_game_by_name] returns the dumps of the first
    three games parsed from the provider's [results], so at most three. *)
Theorem find_game_by_name_at_most_three (game_name : json) (w w' : world)
    (envelope : json) :
  find_game_by_name game_name w = (Ok envelope, w') ->
  get envelope "success" = Ok (JBool true) ->
  exists db_response rawg_payload game_objects,
    Database.search_game_by_name game_name w = (Ok db_response, w')
    /\ nested_results db_response = Ok rawg_payload
    /\ Classes.create_game_objects_from_search_results rawg_payload = Ok game_objects
    /\ envelope = success (JList (map Classes.dump_details (firstn 3 game_objects)))
    /\ length (map Classes.dump_details (firstn 3 game_objects)) <= 3.
Proof.
  unfold find_game_by_name, bind, lift.
  destruct (Database.search_game_by_name game_name w) as [[db_response|e] w1] eqn:Hdb;
    [|discriminate].
  destruct (nested_results db_response) as [rawg_payload|e] eqn:Hpayload; [|discriminate].
  destruct (get db_response "success") as [ok|e]; [|discriminate].
  destruct (negb (truthy ok) || negb (truthy rawg_payload)).
  { unfold database_error, bind, lift, ret.
    destruct (get_default db_response "error" _); [|discriminate].
    intros H Hs. inversion H; subst. discriminate. }
  destruct (Classes.create_game_objects_from_search_results rawg_payload)
    as [game_objects|e] eqn:Hparse; [|discriminate].
  destruct game_objects as [|g gs].
  { unfold ret. intros H Hs. inversion H; subst. discriminate. }
  unfold ret. intros H _. inversion H; subst.
  exists db_response, rawg_payload, (g :: gs).
  split; [reflexivity|]. split; [exact Hpayload|]. split; [exact Hparse|].
  split; [reflexivity|].
  exact (@first_three_length _ _ Classes.dump_details (g :: gs)).
Qed.

Lemma normalize_normalized (v : json) :
  _normalize_list_param (JList (_normalize_list_param v)) = _normalize_list_param v.
Proof. reflexivity. Qed.

(** C8. [_normalize_list_param] makes a one-element list of a bare scalar,
    the empty list of [None] and leaves a list as it is; every one of the
    seven list parameters of [find_multiple_games] goes through it before
    anything else looks at it, so that the call behaves as the call with the
    normalized lists in their place; thus a bare platform slug is looked up
    as the one slug of a list, and a bare developer slug is joined as the
    one item of a list. *)
Theorem list_params_normalized :
  (forall s, _normalize_list_param (JStr s) = [JStr s])
  /\ (forall z, _normalize_list_param (JInt z) = [JInt z])
  /\ (forall b, _normalize_list_param (JBool b) = [JBool b])
  /\ _normalize_list_param JNull = []
  /\ (forall l, _normalize_list_param (JList l) = l)
  /\ (forall a, find_multiple_games a = find_multiple_games (listified a))
  /\ (forall a,
        find_multiple_games a
        = find_multiple_games_normalized a
            (_normalize_list_param (parent_platforms a))
            (_normalize_list_param (platforms a))
            (_normalize_list_param (stores a))
            (_normalize_list_param (developers a))
            (_normalize_list_param (publishers a))
            (_normalize_list_param (genres a))
            (_normalize_list_param (tags a)))
  /\ (forall s,
        _get_platform_ids (_normalize_list_param (JStr s))
        = Ok (match PLATFORM_SLUG_TO_ID s with Some id => [id] | None => [] end))
  /\ (forall s search_params,
        Database.add_slugs "developers" (_normalize_list_param (JStr s)) search_params
        = Ok (search_params ++ [("developers", JStr s)])).
Proof.
  repeat split.
  intros s. unfold _get_platform_ids. simpl.
  destruct (PLATFORM_SLUG_TO_ID s); reflexivity.
Qed.

End HandlerFacts.

(* ===================================================================== *)
(** * Dispatch and the tool-calling loop *)
(* ===================================================================== *)

Section AppFacts.
Context {E : Env}.
Import App.

Lemma handle_tool_call_id (tc : tool_call) (w w' : world) (t : turn) :
  handle_tool_call tc w = (Ok t, w') ->
  exists text, t = ToolResult text (tc_id tc).
Proof.
  unfold handle_tool_call, bind, lift, ret.
  destruct (json_loads (tc_arguments tc)) as [arguments|e]; [|discriminate].
  destruct (invoke (globals_get (tc_name tc)) arguments w) as [[result|e] w1];
    [|discriminate].
  intros H. inversion H; subst. eexists; reflexivity.
Qed.

Lemma handle_tool_calls_from_results (tcs : list tool_call) :
  forall (acc : list turn) (w w' : world) (results : list turn),
    handle_tool_calls_from tcs acc w = (Ok results, w') ->
    exists new,
      results = acc ++ new
      /\ Forall2 (fun tc t => exists text, t = ToolResult text (tc_id tc)) tcs new.
Proof.
  induction tcs as [|tc tcs IH]; intros acc w w' results; simpl.
  - unfold ret. intros H. inversion H; subst.
    exists []. split; [symmetry; apply app_nil_r | constructor].
  - unfold bind.
    destruct (handle_tool_call tc w) as [[t|e] w1] eqn:Hone; [|discriminate].
    intros H. destruct (IH _ _ _ _ H) as (new & Hres & Hall).
    exists (t :: new). split.
    + rewrite Hres, <- app_assoc. reflexivity.
    + constructor; [|exact Hall]. exact (handle_tool_call_id _ _ Hone).
Qed.

Lemma tool_rounds_append (messages final : list turn) :
  tool_rounds messages final -> exists appended, final = messages ++ appended.
Proof.
  induction 1 as [messages | messages rsp tcs results final _ _ _ _ _ IH].
  - exists []. symmetry. apply app_nil_r.
  - destruct IH as [appended Happ]. eexists.
    rewrite Happ, <- app_assoc. reflexivity.
Qed.

Lemma chat_loop_rounds (fuel : nat) :
  forall (messages : list turn) (w : world) (st : stop),
    chat_loop fuel messages w = Some st ->
    tool_rounds messages (conversation st)
    /\ (forall answer,
          returned st = Ok answer ->
          exists rsp,
            llm (conversation st) = Ok rsp
            /\ String.eqb (finish_reason rsp) "tool_calls" = false
            /\ answer = content (r_message rsp)).
Proof.
  induction fuel as [|fuel IH]; intros messages w st; simpl; [discriminate|].
  destruct (llm messages) as [rsp|e] eqn:Hllm.
  - destruct (String.eqb_spec (finish_reason rsp) "tool_calls") as [Hfin|Hfin].
    + destruct (tool_calls (r_message rsp)) as [tcs|] eqn:Htcs; simpl.
      * destruct (handle_tool_calls_from tcs [] w) as [[results|e] w1] eqn:Hrun.
        -- intros H. destruct (IH _ _ _ H) as [Hrounds Hans].
           split; [|exact Hans].
           destruct (handle_tool_calls_from_results _ _ _ Hrun) as (new & -> & Hall).
           simpl app in *. rewrite <- app_assoc in Hrounds.
           exact (rounds_more messages Hllm Hfin Htcs Hall Hrounds).
        -- intros H. inversion H; subst. simpl.
           split; [constructor | discriminate].
      * unfold throw. intros H. inversion H; subst. simpl.
        split; [constructor | discriminate].
    + intros H. inversion H; subst. simpl. split; [constructor|].
      intros answer Ha. inversion Ha; subst.
      exists rsp. repeat split; [exact Hllm|].
      apply String.eqb_neq. exact Hfin.
  - intros H. inversion H; subst. simpl. split; [constructor | discriminate].
Qed.

(** More fuel does not change where the loop stops. *)
Lemma chat_loop_more_fuel (fuel : nat) :
  forall (extra : nat) (messages : list turn) (w : world) (st : stop),
    chat_loop fuel messages w = Some st ->
    chat_loop (fuel + extra) messages w = Some st.
Proof.
  induction fuel as [|fuel IH]; intros extra messages w st; simpl; [discriminate|].
  destruct (llm messages) as [rsp|e]; [|exact (fun H => H)].
  destruct (String.eqb (finish_reason rsp) "tool_calls"); [|exact (fun H => H)].
  destruct (handle_tool_calls (tool_calls (r_message rsp)) w) as [[results|e] w'];
    [apply IH | exact (fun H => H)].
Qed.

(** C4. When [chat] returns a text, that text is the content of a model
    response whose finish reason is not [tool_calls]; and the conversation
    it leaves is the opening conversation followed by whole tool rounds,
    each the model's own message and then one tool result per requested
    call, in request order and tagged with the call's id; nothing of the
    conversation is ever rewritten. *)
Theorem chat_answers_after_tool_rounds (fuel : nat) (message : string)
    (history : list turn) (w : world) (st : stop) :
  chat fuel message history w = Some st ->
  tool_rounds (initial_messages message history) (conversation st)
  /\ (exists appended, conversation st = initial_messages message history ++ appended)
  /\ (forall answer,
        returned st = Ok answer ->
        exists rsp,
          llm (conversation st) = Ok rsp
          /\ finish_reason rsp <> "tool_calls"
          /\ answer = content (r_message rsp)).
Proof.
  unfold chat. intros H.
  destruct (chat_loop_rounds _ _ _ H) as [Hrounds Hans].
  split; [exact Hrounds|]. split; [exact (tool_rounds_append Hrounds)|].
  intros answer Ha. destruct (Hans answer Ha) as (rsp & Hllm & Hfin & Hc).
  exists rsp. split; [exact Hllm|]. split; [|exact Hc].
  apply String.eqb_neq. exact Hfin.
Qed.

(** X24. A tool name that the module namespace of
    [app.py] does not bind (or binds to a falsy value), with arguments that
    decode: the call is not made, the empty dict is the result, and the loop
    of [handle_tool_calls] appends the [ToolResult] that carries it and the
    id of the call, then goes on with the remaining calls. *)
Theorem unbound_tool_name_empty_envelope (tc : tool_call) (arguments : json)
    (rest : list tool_call) (results : list turn) (w : world) :
  json_loads (tc_arguments tc) = Ok arguments ->
  globals_get (tc_name tc) = None \/ globals_get (tc_name tc) = Some PyFalsy ->
  handle_tool_call tc w = (Ok (ToolResult (json_dumps (JObj [])) (tc_id tc)), w)
  /\ handle_tool_calls_from (tc :: rest) results w
     = handle_tool_calls_from rest
         (results ++ [ToolResult (json_dumps (JObj [])) (tc_id tc)]) w.
Proof.
  intros Hloads Hunbound.
  assert (handle_tool_call tc w
          = (Ok (ToolResult (json_dumps (JObj [])) (tc_id tc)), w)) as Hcall.
  { unfold handle_tool_call, bind, lift. rewrite Hloads.
    destruct Hunbound as [-> | ->]; reflexivity. }
  split; [exact Hcall|].
  simpl. unfold bind. rewrite Hcall. reflexivity.
Qed.

End AppFacts.

(* ===================================================================== *)
(** * The lookup normalizer *)
(* ===================================================================== *)

Section NormalizerFacts.
Context {E : Env}.
Import Classes.

(** pydantic accepts a [str] for a [str] field and an [int] for an [int]
    field, and keeps the value. *)
Hypothesis validate_str_str : forall s, validate_str (JStr s) = Ok s.
Hypothesis validate_int_int : forall z, validate_int (JInt z) = Ok z.

Lemma get_field (kv : list (string * json)) (k : string) :
  get (JObj kv) k = Ok (field (JObj kv) k).
Proof. reflexivity. Qed.

Lemma str_field_default (v : json) :
  falsy_or is_str v = true ->
  validate_str (py_or v (JStr "")) = Ok (str_or_empty v).
Proof.
  unfold falsy_or, py_or. intros H.
  destruct v as [|b|z|s|l|kv]; simpl in *;
    try (destruct b); try (destruct l); try (destruct kv);
    try discriminate; try apply validate_str_str.
  - destruct (Z.eqb z 0); simpl in *; [apply validate_str_str | discriminate].
  - destruct (String.eqb_spec s "") as [Hs|_]; [subst s|]; simpl; apply validate_str_str.
Qed.

Lemma int_field_value (v : json) :
  falsy_or is_int v = true -> py_or v (JInt 0) = JInt (int_or_zero v).
Proof.
  unfold falsy_or, py_or. intros H.
  destruct v as [|b|z|s|l|kv]; simpl in *;
    try (destruct b); try (destruct l); try (destruct kv);
    try discriminate; try reflexivity.
  - destruct (Z.eqb_spec z 0) as [Hz|_]; [subst z|]; reflexivity.
  - destruct (String.eqb s ""); simpl in *; [reflexivity | discriminate].
Qed.

Lemma validate_str_list_strs (l : list string) :
  validate_str_list (map JStr l) = Ok l.
Proof.
  induction l as [|s l IH]; simpl; [reflexivity|].
  rewrite validate_str_str, IH. reflexivity.
Qed.

(** The name read from an entry that has one to read. *)
Lemma named_name (e : json) :
  named e = true ->
  get e "name" = Ok (field e "name")
  /\ (if truthy (field e "name") then [field e "name"] else [])
     = map JStr (display_name e).
Proof.
  unfold named, display_name. destruct e as [| | | | |kv]; try discriminate.
  intros H. split; [reflexivity|].
  unfold falsy_or in H.
  destruct (field (JObj kv) "name") as [|b|z|s|l|kv']; simpl in *;
    try (destruct b); try (destruct l); try (destruct kv');
    try discriminate; try reflexivity.
  - destruct (Z.eqb z 0); simpl in *; [reflexivity | discriminate].
  - destruct (String.eqb s ""); reflexivity.
Qed.

Lemma wrapped_name_of (wrapper : string) (e : json) :
  wrapped wrapper e = true ->
  exists v,
    wrapped_name wrapper e = Ok v
    /\ (if truthy v then [v] else []) = map JStr (display_name (field e wrapper)).
Proof.
  unfold wrapped, wrapped_name. destruct e as [| | | | |kv]; try discriminate.
  simpl. destruct (assoc wrapper kv) as [inner|].
  - intros H. destruct (named_name _ H) as [Hget Hname].
    exists (field inner "name"). simpl. split; assumption.
  - intros _. exists JNull. split; reflexivity.
Qed.

Lemma plain_name_of (e : json) :
  named e = true ->
  exists v,
    plain_name e = Ok v
    /\ (if truthy v then [v] else []) = map JStr (display_name e).
Proof.
  intros H. destruct (named_name _ H) as [Hget Hname].
  exists (field e "name"). split; assumption.
Qed.

Lemma comprehension_names (inner : json -> res json) (ok : json -> bool)
    (unwrap : json -> json) :
  (forall e, ok e = true ->
             exists v, inner e = Ok v
                       /\ (if truthy v then [v] else [])
                          = map JStr (display_name (unwrap e))) ->
  forall l,
    forallb ok l = true ->
    comprehension inner l = Ok (map JStr (flat_map (fun e => display_name (unwrap e)) l)).
Proof.
  intros Hinner. induction l as [|e l IH]; simpl; intros H; [reflexivity|].
  apply andb_true_iff in H as [He Hl].
  destruct (Hinner e He) as (v & Hv & Hname).
  rewrite Hv. simpl. rewrite map_app, <- Hname.
  destruct (truthy v); simpl; rewrite (IH Hl); reflexivity.
Qed.

Lemma entry_names_of (inner : json -> res json) (ok : json -> bool)
    (unwrap : json -> json) (kv : list (string * json)) (k : string) :
  (forall e, ok e = true ->
             exists v, inner e = Ok v
                       /\ (if truthy v then [v] else [])
                          = map JStr (display_name (unwrap e))) ->
  entries ok (field (JObj kv) k) = true ->
  entry_names inner (JObj kv) k
  = Ok (map JStr (display_names unwrap (field (JObj kv) k))).
Proof.
  intros Hinner H. unfold entry_names.
  rewrite get_field. unfold rbind at 1.
  generalize dependent (field (JObj kv) k). intros v H.
  unfold entries, py_or in H |- *.
  destruct v as [|b|z|s|l|kv']; simpl in *.
  - reflexivity.
  - destruct b; [discriminate | reflexivity].
  - destruct (Z.eqb z 0); simpl in *; [reflexivity | discriminate].
  - destruct (String.eqb s ""); simpl in *; [reflexivity | discriminate].
  - destruct l as [|e l]; [reflexivity|].
    simpl orb in H. apply (comprehension_names _ _ _ Hinner). exact H.
  - destruct kv'; [reflexivity | discriminate].
Qed.

Lemma esrb_name_of (kv : list (string * json)) :
  esrb_name (JObj kv) = Ok (field (field (JObj kv) "esrb_rating") "name_en").
Proof.
  unfold esrb_name. rewrite get_field. unfold rbind.
  destruct (field (JObj kv) "esrb_rating"); reflexivity.
Qed.

Lemma opt_int_field (v : json) :
  null_or is_int v = true -> validate_opt_int v = Ok (int_or_absent v).
Proof.
  destruct v; simpl; try discriminate; intros _; [reflexivity|].
  rewrite validate_int_int. reflexivity.
Qed.

Lemma opt_str_field (v : json) :
  null_or is_str v = true -> validate_opt_str v = Ok (str_or_absent v).
Proof.
  destruct v; simpl; try discriminate; intros _; [reflexivity|].
  rewrite validate_str_str. reflexivity.
Qed.

Lemma esrb_field (v : json) :
  esrb_shaped v = true -> null_or is_str (field v "name_en") = true.
Proof.
  destruct v; simpl; intros H; try reflexivity. exact H.
Qed.

(** On a record of the accepted shape, one pass of the loop builds the
    canonical record. *)
Lemma game_details_of_shaped (result : json) :
  shaped_record result = true ->
  game_details_of result = Ok (normalized result).
Proof.
  destruct result as [| | | | |kv]; try discriminate.
  unfold shaped_record. rewrite !andb_true_iff.
  intros ((((((((Hn & Hi) & Hp) & Hpl) & Hst) & Hge) & Hr) & Hm) & He).
  unfold game_details_of.
  rewrite (entry_names_of _ (wrapped "platform") (fun e => field e "platform") kv
             "platforms" (wrapped_name_of "platform") Hpl).
  rewrite (entry_names_of _ (wrapped "store") (fun e => field e "store") kv
             "stores" (wrapped_name_of "store") Hst).
  rewrite (entry_names_of _ named (fun e => e) kv "genres" plain_name_of Hge).
  rewrite esrb_name_of, !get_field.
  unfold rbind at 1 2 3 4 5 6 7 8 9.
  rewrite (int_field_value _ Hp). unfold py_int, rbind at 1.
  rewrite (str_field_default _ Hn). unfold rbind at 1.
  rewrite (int_field_value _ Hi), validate_int_int. unfold rbind at 1.
  rewrite validate_int_int. unfold rbind at 1.
  rewrite !validate_str_list_strs. unfold rbind at 1 2 3.
  rewrite (str_field_default _ Hr). unfold rbind at 1.
  rewrite (opt_int_field _ Hm). unfold rbind at 1.
  rewrite (opt_str_field _ (esrb_field _ He)). reflexivity.
Qed.

Lemma parse_games_shaped (records : list json) :
  forall parsed_games,
    forallb shaped_record records = true ->
    parse_games records parsed_games = Ok (parsed_games ++ map normalized records).
Proof.
  induction records as [|result records IH]; simpl; intros parsed_games H.
  - rewrite app_nil_r. reflexivity.
  - apply andb_true_iff in H as [Hr Hrs].
    rewrite (game_details_of_shaped _ Hr). simpl.
    rewrite (IH _ Hrs), <- app_assoc. reflexivity.
Qed.

Lemma create_game_objects_shaped (records : list json) :
  forallb shaped_record records = true ->
  create_game_objects_from_search_results (JList records) = Ok (map normalized records).
Proof.
  intros H. unfold create_game_objects_from_search_results.
  destruct records as [|result records]; [reflexivity|].
  simpl negb. cbv iota. simpl iter. unfold rbind.
  exact (parse_games_shaped (result :: records) [] H).
Qed.

Lemma description_shaped (payload : json) :
  shaped_description payload = true ->
  create_description_response_from_json payload = Ok (normalized_description payload).
Proof.
  destruct payload as [| | | | |kv]; try discriminate.
  unfold shaped_description. rewrite !andb_true_iff. intros ((Hn & Hi) & Hd).
  unfold create_description_response_from_json.
  rewrite !get_field. unfold rbind at 1 2 3.
  rewrite (str_field_default _ Hn). unfold rbind at 1.
  rewrite (int_field_value _ Hi), validate_int_int. unfold rbind at 1.
  rewrite (str_field_default _ Hd). reflexivity.
Qed.

Lemma all_null_defaults (kv : list (string * json)) :
  (forall k, In k record_keys -> field (JObj kv) k = JNull) ->
  shaped_record (JObj kv) = true /\ normalized (JObj kv) = default_details.
Proof.
  intros H. unfold shaped_record, normalized.
  rewrite !H by (simpl; tauto). split; reflexivity.
Qed.

(** C9, as the code has it. On records of the accepted shape (a dict whose
    scalar fields are absent, falsy or of the field's type, whose
    platform, store and genre lists are absent, falsy or lists of dict
    entries, the wrapper of a platform or store entry being absent or a
    dict) the normalizer never raises: it returns one canonical record per
    input record, with the defaults for what is missing or null and without
    the entries that have no name; an absent or empty input list gives the
    empty list; and the description payload is normalized likewise. *)
Theorem normalizer_total_on_shaped_records :
  (forall records,
      forallb shaped_record records = true ->
      create_game_objects_from_search_results (JList records)
      = Ok (map normalized records))
  /\ create_game_objects_from_search_results JNull = Ok []
  /\ create_game_objects_from_search_results (JList []) = Ok []
  /\ (forall kv,
        (forall k, In k record_keys -> field (JObj kv) k = JNull) ->
        create_game_objects_from_search_results (JList [JObj kv]) = Ok [default_details])
  /\ (forall payload,
        shaped_description payload = true ->
        create_description_response_from_json payload
        = Ok (normalized_description payload)).
Proof.
  split; [exact create_game_objects_shaped|].
  split; [reflexivity|]. split; [reflexivity|]. split.
  - intros kv H. destruct (all_null_defaults kv H) as [Hshape Hdef].
    rewrite create_game_objects_shaped by (unfold forallb; rewrite Hshape; reflexivity).
    simpl. rewrite Hdef. reflexivity.
  - exact description_shaped.
Qed.

End NormalizerFacts.

(* ===================================================================== *)
(** * The statements at concrete inputs *)
(* ===================================================================== *)

Lemma retry_returns_first_success_witness :
  backoff_in_range 3 1%Q
  /\ (Z.of_nat 2 < 3)%Z
  /\ @Database._make_request_with_retry (Demo.flaky (Demo.search_body []))
       Demo.probe 3 1%Q Demo.w0
     = (Ok (success_envelope (Demo.search_body [])),
        MkWorld (events Demo.w0
                 ++ @attempts_trace (Demo.flaky (Demo.search_body []))
                      Demo.probe 1%Q (draws Demo.w0) 3)
                (gets Demo.w0 + 3) (draws Demo.w0 + 2))
  /\ count_gets (@attempts_trace (Demo.flaky (Demo.search_body []))
                   Demo.probe 1%Q (draws Demo.w0) 3) = 3
  /\ last (@attempts_trace (Demo.flaky (Demo.search_body []))
             Demo.probe 1%Q (draws Demo.w0) 3) (EvSleep 0%Q)
     = EvGet Demo.probe.
Proof.
  assert (backoff_in_range 3 1%Q) as Hrange
    by (repeat split; try (unfold Qle; simpl; lia); lia).
  split; [exact Hrange|]. split; [lia|].
  apply (@retry_returns_first_success (Demo.flaky (Demo.search_body []))
           Demo.probe 3%Z 1%Q Demo.w0 2 Demo.flaky_errors (Demo.search_body [])).
  - exact Hrange.
  - lia.
  - intros i Hi. destruct i as [|[|i]]; [reflexivity | reflexivity | lia].
  - reflexivity.
Defined.

Lemma retry_exhausted_error_envelope_witness :
  backoff_in_range 3 1%Q
  /\ exists w',
    @Database._make_request_with_retry Demo.offline Demo.probe 3 1%Q Demo.w0
    = (Ok (JObj [("success", JBool false); ("error", JStr "timed out")]), w')
    /\ gets w' = gets Demo.w0 + 3
    /\ events w'
       = events Demo.w0 ++ @attempts_trace Demo.offline Demo.probe 1%Q (draws Demo.w0) 3
    /\ count_gets (@attempts_trace Demo.offline Demo.probe 1%Q (draws Demo.w0) 3) = 3.
Proof.
  assert (backoff_in_range 3 1%Q) as Hrange
    by (repeat split; try (unfold Qle; simpl; lia); lia).
  split; [exact Hrange|].
  apply (@retry_exhausted_error_envelope Demo.offline Demo.probe 3%Z 1%Q Demo.w0
           (fun _ => "timed out")).
  - exact Hrange.
  - intros i Hi. destruct i as [|[|[|i]]]; reflexivity.
Defined.

(** C2 as stated fails: after three failed attempts the envelope of the
    retrying GET has the message under [error]; there is no
    [failure_reason] entry in it. *)
Lemma retry_exhausted_has_no_failure_reason :
  fst (@Database._make_request_with_retry Demo.offline Demo.probe 3 1%Q Demo.w0)
  = Ok (JObj [("success", JBool false); ("error", JStr "timed out")])
  /\ ~ (exists reason,
          fst (@Database._make_request_with_retry Demo.offline Demo.probe 3 1%Q Demo.w0)
          = Ok (JObj [("success", JBool false); ("failure_reason", JStr reason)])).
Proof.
  split; [reflexivity|].
  intros [reason H]. vm_compute in H. discriminate H.
Qed.

Lemma find_game_by_name_zero_matches_witness :
  @Database.search_game_by_name (Demo.online (Demo.search_body [])) (JStr "Zxqqxz12345")
     Demo.w0
  = (Ok (success_envelope (JObj [("count", JInt 0); ("results", JList [])])),
     snd (@Database.search_game_by_name (Demo.online (Demo.search_body []))
            (JStr "Zxqqxz12345") Demo.w0))
  /\ @Tools.find_game_by_name (Demo.online (Demo.search_body [])) (JStr "Zxqqxz12345")
       Demo.w0
     = (Ok Demo.unknown_fetch_failure,
        snd (@Database.search_game_by_name (Demo.online (Demo.search_body []))
               (JStr "Zxqqxz12345") Demo.w0)).
Proof.
  split; [reflexivity|].
  apply (@find_game_by_name_zero_matches (Demo.online (Demo.search_body []))
           (JStr "Zxqqxz12345") Demo.w0 _ [("count", JInt 0); ("results", JList [])]);
    reflexivity.
Defined.

(** C3 as stated fails: on a successful search with zero matches the
    handler's reason is the database error with the default message, not
    the parse failure. *)
Lemma zero_matches_is_not_a_parse_failure :
  fst (@Database.search_game_by_name (Demo.online (Demo.search_body []))
         (JStr "Zxqqxz12345") Demo.w0)
  = Ok (success_envelope (JObj [("count", JInt 0); ("results", JList [])]))
  /\ fst (@Tools.find_game_by_name (Demo.online (Demo.search_body []))
            (JStr "Zxqqxz12345") Demo.w0)
     = Ok Demo.unknown_fetch_failure
  /\ fst (@Tools.find_game_by_name (Demo.online (Demo.search_body []))
            (JStr "Zxqqxz12345") Demo.w0)
     <> Ok (Tools.failure "Failed to parse database results.").
Proof.
  split; [reflexivity|]. split; [reflexivity|].
  intros H. vm_compute in H. discriminate H.
Qed.

Lemma find_game_by_name_at_most_three_witness :
  @Tools.find_game_by_name (Demo.online (Demo.search_body Demo.four_games))
     (JStr "Celeste") Demo.w0
  = (Ok (Tools.success
           (JList (map Classes.dump_details (map normalized (firstn 3 Demo.four_games))))),
     snd (@Tools.find_game_by_name (Demo.online (Demo.search_body Demo.four_games))
            (JStr "Celeste") Demo.w0))
  /\ exists db_response rawg_payload game_objects,
       @Database.search_game_by_name (Demo.online (Demo.search_body Demo.four_games))
         (JStr "Celeste") Demo.w0
       = (Ok db_response,
          snd (@Tools.find_game_by_name (Demo.online (Demo.search_body Demo.four_games))
                 (JStr "Celeste") Demo.w0))
       /\ Tools.nested_results db_response = Ok rawg_payload
       /\ @Classes.create_game_objects_from_search_results
            (Demo.online (Demo.search_body Demo.four_games)) rawg_payload
          = Ok game_objects
       /\ Tools.success
            (JList (map Classes.dump_details (map normalized (firstn 3 Demo.four_games))))
          = Tools.success (JList (map Classes.dump_details (firstn 3 game_objects)))
       /\ length (map Classes.dump_details (firstn 3 game_objects)) <= 3.
Proof.
  split; [reflexivity|].
  apply (@find_game_by_name_at_most_three
           (Demo.online (Demo.search_body Demo.four_games)) (JStr "Celeste") Demo.w0);
    reflexivity.
Defined.


Lemma unbound_tool_name_empty_envelope_witness :
  @App.handle_tool_call Demo.offline (MkToolCall "call_9" "summon_dragon" "{}") Demo.w0
  = (Ok (ToolResult "{}" "call_9"), Demo.w0)
  /\ @App.handle_tool_calls_from Demo.offline
       [MkToolCall "call_9" "summon_dragon" "{}"; Demo.date_call] [] Demo.w0
     = @App.handle_tool_calls_from Demo.offline [Demo.date_call]
         ([] ++ [ToolResult "{}" "call_9"]) Demo.w0.
Proof.
  apply (@unbound_tool_name_empty_envelope Demo.offline
           (MkToolCall "call_9" "summon_dragon" "{}") (JObj []) [Demo.date_call] []
           Demo.w0).
  - reflexivity.
  - left. reflexivity.
Defined.

(** C7, the code at the failing input. [json] is not a declared tool; the
    lookup in the module namespace finds the imported module, the guard of
    the dispatch lets it through and the call raises [TypeError]: no
    envelope is returned for the call, the exception leaves
    [handle_tool_calls], and [chat] stops with it in a round that asks for
    [json], with nothing of the round appended to the conversation. *)
Lemma undeclared_bound_name_raises :
  App.mem "json" Tools.VIDEO_GAME_TOOLS = false
  /\ @App.globals_get Demo.offline "json" = Some (PyNotCallable "module")
  /\ fst (@App.handle_tool_call Demo.offline (MkToolCall "call_1" "json" "{}") Demo.w0)
     = Raise (MkExn TypeError "'module' object is not callable")
  /\ fst (@App.handle_tool_calls Demo.offline
            (Some [MkToolCall "call_1" "json" "{}"; Demo.date_call]) Demo.w0)
     = Raise (MkExn TypeError "'module' object is not callable")
  /\ @App.chat Demo.broken 5 "What day is it?" [] Demo.w0
     = Some (App.MkStop (Raise (MkExn TypeError "'module' object is not callable"))
               (@App.initial_messages Demo.broken "What day is it?" []) Demo.w0).
Proof.
  repeat split.
Qed.

Lemma normalizer_total_on_shaped_records_witness :
  (forall s, @validate_str Demo.offline (JStr s) = Ok s)
  /\ (forall z, @validate_int Demo.offline (JInt z) = Ok z)
  /\ forallb shaped_record Demo.sparse_records = true
  /\ @Classes.create_game_objects_from_search_results Demo.offline
       (JList Demo.sparse_records)
     = Ok (map normalized Demo.sparse_records).
Proof.
  split; [intros s; reflexivity|]. split; [intros z; reflexivity|].
  split; [reflexivity|].
  exact (proj1 (@normalizer_total_on_shaped_records Demo.offline
                  (fun s => eq_refl) (fun z => eq_refl))
           Demo.sparse_records eq_refl).
Defined.

(** The canonical records of [sparse_records], spelled out. *)
Example sparse_records_normalized :
  map normalized Demo.sparse_records
  = [default_details;
     Classes.MkDetails "" 0 12 ["PC"] [] ["Platformer"] "" None (Some "Everyone");
     Classes.MkDetails "Celeste" 1 0 ["PC"] [] [] "" None None].
Proof. reflexivity. Qed.

(** C9 as stated fails: a record whose platform entries are not dicts
    makes the normalizer raise. *)
Lemma unwrapped_entry_raises :
  @Classes.create_game_objects_from_search_results Demo.offline
    (JList [Demo.unwrapped_record])
  = Raise (MkExn AttributeError "'str' object has no attribute 'get'").
Proof. reflexivity. Qed.

(** A platform entry whose wrapper is null: the default dict of
    [get("platform", {})] does not apply to a key that is present. *)
Example null_wrapper_raises :
  @Classes.create_game_objects_from_search_results Demo.offline
    (JList [Demo.null_wrapper_record])
  = Raise (MkExn AttributeError "'NoneType' object has no attribute 'get'").
Proof. reflexivity. Qed.

Lemma chat_answers_after_tool_rounds_witness :
  @App.chat Demo.dated 2 "What day is it?" [] Demo.w0 = Some Demo.dated_stop
  /\ @tool_rounds Demo.dated (@App.initial_messages Demo.dated "What day is it?" [])
       (App.conversation Demo.dated_stop)
  /\ (exists appended,
        App.conversation Demo.dated_stop
        = @App.initial_messages Demo.dated "What day is it?" [] ++ appended)
  /\ (forall answer,
        App.returned Demo.dated_stop = Ok answer ->
        exists rsp,
          @llm Demo.dated (App.conversation Demo.dated_stop) = Ok rsp
          /\ finish_reason rsp <> "tool_calls"
          /\ answer = content (r_message rsp)).
Proof.
  assert (@App.chat Demo.dated 2 "What day is it?" [] Demo.w0 = Some Demo.dated_stop)
    as Hrun by reflexivity.
  split; [exact Hrun|].
  exact (@chat_answers_after_tool_rounds Demo.dated 2 "What day is it?" [] Demo.w0
           Demo.dated_stop Hrun).
Defined.

(* ===================================================================== *)
(** * More on the retrying GET *)
(* ===================================================================== *)

Section RetryRuns.
Context {E : Env}.
Import Database.

Variables (r : request) (max_retries : Z) (base_delay : Q).

(** One run of the loop from attempt [a] with [m] attempts to go: the
    number [n] of attempts made, the log, the counters and the envelope. *)
Lemma retry_loop_run (m : nat) :
  forall (a d0 : nat) (last_error : option string) (w : world),
    Z.of_nat (a + m) = max_retries ->
    draws w = d0 + a ->
    exists n envelope,
      retry_loop (map Z.of_nat (seq a m)) r max_retries base_delay last_error w
      = (envelope,
         MkWorld (events w ++ match n with
                              | O => []
                              | S n' => flat_map (failed_round r base_delay d0) (seq (S a) n')
                                        ++ [EvGet r]
                              end)
                 (gets w + n) (draws w + (n - 1)))
      /\ n <= m /\ (0 < m -> 0 < n)
      /\ ((exists body, envelope = success_envelope body
                        /\ 0 < n /\ http_get (gets w + (n - 1)) r = Responded body)
          \/ (exists msg, envelope = error_envelope msg /\ n = m)).
Proof.
  induction m as [|m IH]; intros a d0 last_error w Hmax Hd.
  - exists 0. eexists. simpl. rewrite world_eta.
    split; [reflexivity|]. split; [lia|]. split; [lia|].
    right. eexists. split; reflexivity.
  - simpl seq. simpl map.
    destruct (http_get (gets w) r) as [msg|body] eqn:Hget.
    + destruct m as [|m'].
      * exists 1. eexists. simpl. unfold session_get. rewrite Hget.
        replace (Z.of_nat a <? max_retries - 1)%Z with false
          by (symmetry; apply Z.ltb_ge; lia).
        simpl. rewrite Nat.add_1_r, Nat.add_0_r.
        split; [reflexivity|]. split; [lia|]. split; [lia|].
        right. eexists. split; reflexivity.
      * rewrite (@retry_loop_step _ r max_retries base_delay a _ last_error w msg)
          by (lia || assumption).
        edestruct (IH (S a) d0 (Some msg)) as (n & envelope & Hrun & Hle & Hpos & Hcase);
          [ | | rewrite Hrun ]; [lia | simpl; lia | ].
        destruct n as [|n']; [exfalso; lia|].
        exists (S (S n')), envelope. split; [|split; [lia|split; [lia|]]].
        -- simpl events. simpl gets. simpl draws. simpl flat_map.
           unfold failed_round at 2.
           rewrite delay_before_next, <- Hd, <- !app_assoc. simpl app.
           f_equal. f_equal; lia.
        -- destruct Hcase as [(body & He & _ & Hb) | (msg' & He & Hn)].
           ++ left. exists body. split; [exact He|]. split; [lia|].
              simpl gets in Hb. rewrite <- Hb. f_equal. lia.
           ++ right. exists msg'. split; [exact He | lia].
    + exists 1. eexists. simpl. unfold session_get. rewrite Hget. simpl.
      rewrite Nat.add_1_r, !Nat.add_0_r.
      split; [reflexivity|]. split; [lia|]. split; [lia|].
      left. exists body. split; [reflexivity|]. split; [lia | exact Hget].
Qed.

(** The same for a whole call. *)
Lemma client_run (w : world) :
  exists n envelope,
    _make_request_with_retry r max_retries base_delay w
    = (Ok envelope,
       MkWorld (events w ++ attempts_trace r base_delay (draws w) n)
               (gets w + n) (draws w + (n - 1)))
    /\ n <= Z.to_nat max_retries /\ ((0 < max_retries)%Z -> 0 < n)
    /\ ((exists body, envelope = success_envelope body
                      /\ 0 < n /\ http_get (gets w + (n - 1)) r = Responded body)
        \/ (exists msg, envelope = error_envelope msg /\ n = Z.to_nat max_retries)).
Proof.
  unfold _make_request_with_retry, range.
  destruct (Z_le_gt_dec max_retries 0) as [Hneg|Hpos].
  - replace (Z.to_nat max_retries) with 0 by lia. simpl.
    exists 0. eexists. rewrite world_eta.
    split; [reflexivity|]. split; [lia|]. split; [lia|].
    right. eexists. split; reflexivity.
  - destruct (@retry_loop_run (Z.to_nat max_retries) 0 (draws w) None w)
      as (n & envelope & Hrun & Hle & Hn & Hcase); [lia | lia |].
    rewrite Hrun. exists n, envelope.
    split; [|split; [exact Hle|split; [intros _; apply Hn; lia | exact Hcase]]].
    destruct n as [|n']; [reflexivity|].
    rewrite rounds_shift. reflexivity.
Qed.

Lemma count_sleeps_rounds (d0 a m : nat) :
  count_sleeps (flat_map (retry_round r base_delay d0) (seq a m)) = m.
Proof.
  revert a. induction m as [|m IH]; intros a; simpl; [reflexivity|].
  unfold count_sleeps in *. simpl. rewrite IH. reflexivity.
Qed.


(** X2. For parameters in the range of the back-off and whatever the
    network does, a call makes at most [max_retries]
    GETs and at least one when [max_retries] is positive; it sleeps once
    less than it GETs, with one random draw per sleep; and the last thing
    it does is a GET, never a sleep. *)
Theorem retry_effects_bounded (w : world) :
  backoff_in_range max_retries base_delay ->
  exists n new,
    events (snd (_make_request_with_retry r max_retries base_delay w)) = events w ++ new
    /\ gets (snd (_make_request_with_retry r max_retries base_delay w)) = gets w + n
    /\ draws (snd (_make_request_with_retry r max_retries base_delay w))
       = draws w + (n - 1)
    /\ n <= Z.to_nat max_retries
    /\ ((0 < max_retries)%Z -> 0 < n)
    /\ count_gets new = n
    /\ count_sleeps new = n - 1
    /\ (0 < n -> last new (EvSleep 0%Q) = EvGet r).
Proof.
  intros _.
  destruct (client_run w) as (n & envelope & Hrun & Hle & Hpos & _).
  exists n, (attempts_trace r base_delay (draws w) n). rewrite Hrun. simpl.
  split; [reflexivity|]. split; [reflexivity|]. split; [reflexivity|].
  split; [exact Hle|]. split; [exact Hpos|].
  split; [apply count_gets_attempts|]. split.
  - destruct n as [|m]; [reflexivity|]. unfold attempts_trace.
    change (EvGet r :: ?l) with ([EvGet r] ++ l).
    unfold count_sleeps. rewrite filter_app, length_app. simpl.
    fold (count_sleeps (flat_map (retry_round r base_delay (draws w)) (seq 2 m))).
    rewrite count_sleeps_rounds. lia.
  - destruct n as [|m]; [lia|]. intros _.
    unfold attempts_trace. rewrite <- rounds_shift. apply last_last.
Qed.

(** X3. With [max_retries] zero or negative no request is made at all:
    the call returns the error envelope with the text [None] and leaves
    the world as it was. *)
Theorem retry_without_attempts (w : world) :
  (max_retries <= 0)%Z ->
  _make_request_with_retry r max_retries base_delay w
  = (Ok (JObj [("success", JBool false); ("error", JStr "None")]), w).
Proof.
  intros H. unfold _make_request_with_retry, range.
  replace (Z.to_nat max_retries) with 0 by lia. reflexivity.
Qed.

Lemma rounds_length (d0 m : nat) :
  forall a, length (flat_map (retry_round r base_delay d0) (seq a m)) = 2 * m.
Proof.
  induction m as [|m IH]; intros a; simpl; [reflexivity|].
  rewrite IH. lia.
Qed.

(** Where the sleep and the GET of an attempt sit in the rounds. *)
Lemma rounds_nth (d0 m : nat) :
  forall a i,
    i < m ->
    nth_error (flat_map (retry_round r base_delay d0) (seq a m)) (2 * i)
    = Some (EvSleep (delay_before base_delay d0 (a + i)))
    /\ nth_error (flat_map (retry_round r base_delay d0) (seq a m)) (S (2 * i))
       = Some (EvGet r).
Proof.
  induction m as [|m IH]; intros a i Hi; [lia|].
  destruct i as [|i].
  - simpl. rewrite Nat.add_0_r. split; reflexivity.
  - replace (2 * S i) with (S (S (2 * i))) by lia.
    simpl seq. simpl flat_map. simpl nth_error.
    replace (a + S i) with (S a + i) by lia.
    apply IH. lia.
Qed.

(** The attempts that a call makes when its first [N] attempts fail. *)
Lemma attempts_after_failures (w : world) (N n : nat) (msgs : nat -> string) :
  (Z.of_nat N < max_retries)%Z ->
  (forall i, i < N -> http_get (gets w + i) r = Failed (msgs i)) ->
  (exists body, 0 < n /\ http_get (gets w + (n - 1)) r = Responded body)
  \/ n = Z.to_nat max_retries ->
  N < n.
Proof.
  intros Hlt Hfail [(body & Hpos & Hbody) | Hn]; [|lia].
  destruct (Nat.lt_ge_cases N n) as [H|H]; [exact H|].
  rewrite (Hfail (n - 1)) in Hbody by lia. discriminate.
Qed.

(** C5. For parameters in the range of the back-off and [random()] in the
    unit interval, when the first [N] attempts of a call fail: the call
    makes [n > N] attempts, its log is the first GET followed, for each
    attempt [k] from 2 to [n], by a sleep of
    [base_delay * 2^(k-2) + uniform(0, 0.1)] and then the GET of attempt
    [k]; each jitter lies between 0 (included) and 0.1 (excluded); and
    with the default [base_delay] each delay is smaller than the next. *)
Theorem backoff_schedule (w : world) (N : nat) (msgs : nat -> string) :
  backoff_in_range max_retries base_delay ->
  (forall n, (0 <= random n)%Q /\ (random n < 1)%Q) ->
  (Z.of_nat N < max_retries)%Z ->
  (forall i, i < N -> http_get (gets w + i) r = Failed (msgs i)) ->
  let jitter := fun k => uniform 0 (1 # 10) (random (draws w + (k - 2))) in
  let delay := fun k => (base_delay * inject_Z (2 ^ Z.of_nat (k - 2)) + jitter k)%Q in
  exists n new,
    N < n /\ n <= Z.to_nat max_retries
    /\ gets (snd (_make_request_with_retry r max_retries base_delay w)) = gets w + n
    /\ events (snd (_make_request_with_retry r max_retries base_delay w))
       = events w ++ new
    /\ length new = 2 * n - 1
    /\ nth_error new 0 = Some (EvGet r)
    /\ (forall k,
          2 <= k <= n ->
          nth_error new (2 * k - 3) = Some (EvSleep (delay k))
          /\ nth_error new (2 * k - 2) = Some (EvGet r)
          /\ (0 <= jitter k)%Q /\ (jitter k < 1 # 10)%Q)
    /\ (base_delay = default_base_delay ->
        forall k, 2 <= k -> (delay k < delay (S k))%Q).
Proof.
  intros _ Hrand Hlt Hfail jitter delay.
  destruct (client_run w) as (n & envelope & Hrun & Hle & _ & Hcase).
  assert (N < n) as HN.
  { apply (@attempts_after_failures w N n msgs Hlt Hfail).
    destruct Hcase as [(body & _ & Hpos & Hbody) | (msg & _ & Hn)].
    - left. exists body. split; assumption.
    - right. exact Hn. }
  exists n, (attempts_trace r base_delay (draws w) n). rewrite Hrun. simpl snd.
  split; [exact HN|]. split; [exact Hle|]. split; [reflexivity|].
  split; [reflexivity|].
  destruct n as [|m]; [lia|]. unfold attempts_trace.
  split; [simpl; rewrite rounds_length; lia|]. split; [reflexivity|]. split.
  - intros k Hk.
    destruct (@rounds_nth (draws w) m 2 (k - 2)) as [Hsleep Hget]; [lia|].
    replace (2 * k - 3) with (S (2 * (k - 2))) by lia.
    replace (2 * k - 2) with (S (S (2 * (k - 2)))) by lia.
    replace (2 + (k - 2)) with k in Hsleep by lia.
    split; [exact Hsleep|]. split; [exact Hget|].
    exact (@jitter_range _ (draws w + (k - 2)) (Hrand _)).
  - intros Hbase k Hk. unfold delay, jitter. rewrite Hbase. unfold default_base_delay.
    destruct k as [|[|m']]; try lia.
    replace (S (S (S m')) - 2) with (S m') by lia.
    replace (S (S m') - 2) with m' by lia.
    pose proof (pow2_succ m') as Hs. pose proof (pow2_ge_1 m') as Hge.
    destruct (@jitter_range _ (draws w + m') (Hrand _)) as [Ha Hb].
    destruct (@jitter_range _ (draws w + S m') (Hrand _)) as [Hc Hd].
    unfold jitter_of_draw in *. rewrite Hs. lra.
Qed.

End RetryRuns.

Section DefaultBackoff.
Context {E : Env}.
Import Database.


End DefaultBackoff.

(* ===================================================================== *)
(** * More on the lookup normalizer *)
(* ===================================================================== *)

Section NormalizerBatches.
Context {E : Env}.
Import Classes.

Lemma parse_games_pointwise (results : list json) :
  forall parsed_games games,
    parse_games results parsed_games = Ok games ->
    exists new,
      games = parsed_games ++ new
      /\ Forall2 (fun result g => game_details_of result = Ok g) results new.
Proof.
  induction results as [|result results IH]; simpl; intros parsed_games games H.
  - inversion H; subst. exists []. split; [symmetry; apply app_nil_r | constructor].
  - destruct (game_details_of result) as [g|e] eqn:Hg; [|discriminate].
    simpl in H. destruct (IH _ _ H) as (new & -> & Hall).
    exists (g :: new). split; [rewrite <- app_assoc; reflexivity|].
    constructor; assumption.
Qed.

Lemma parse_games_first_failure (pre post : list json) (bad : json) (e : exn) :
  forallb (fun result => is_ok (game_details_of result)) pre = true ->
  game_details_of bad = Raise e ->
  forall parsed_games, parse_games (pre ++ bad :: post) parsed_games = Raise e.
Proof.
  intros Hpre Hbad. induction pre as [|result pre IH]; simpl; intros parsed_games.
  - rewrite Hbad. reflexivity.
  - simpl in Hpre. apply andb_true_iff in Hpre as [Hr Hpre].
    destruct (game_details_of result) as [g|e']; [|discriminate].
    simpl. apply IH. exact Hpre.
Qed.

(** X5. When the normalizer returns, it returns exactly one game per
    input record, in the order of the records, each being what the loop
    body makes of its record: nothing is dropped, merged or reordered. *)
Theorem create_game_objects_one_per_record (records : list json)
    (games : list GameDetailsResponse) :
  create_game_objects_from_search_results (JList records) = Ok games ->
  length games = length records
  /\ Forall2 (fun result g => game_details_of result = Ok g) records games.
Proof.
  unfold create_game_objects_from_search_results.
  destruct records as [|result records].
  - simpl. intros H. inversion H. split; [reflexivity | constructor].
  - simpl negb. cbv iota. simpl iter. unfold rbind. intros H.
    destruct (parse_games_pointwise _ _ H) as (new & -> & Hall).
    split; [|exact Hall]. simpl app. symmetry. exact (Forall2_length Hall).
Qed.

(** X6. One record that cannot be normalized loses the whole batch: the
    normalizer raises the exception of the first such record, whatever
    comes before and after it. *)
Theorem create_game_objects_first_failure (pre post : list json) (bad : json)
    (e : exn) :
  forallb (fun result => is_ok (game_details_of result)) pre = true ->
  game_details_of bad = Raise e ->
  create_game_objects_from_search_results (JList (pre ++ bad :: post)) = Raise e.
Proof.
  intros Hpre Hbad. unfold create_game_objects_from_search_results.
  replace (truthy (JList (pre ++ bad :: post))) with true
    by (destruct pre; reflexivity).
  simpl negb. cbv iota. simpl iter. unfold rbind.
  apply parse_games_first_failure; assumption.
Qed.

(** X7. The dump of a game is not something the normalizer reads back:
    as soon as the game has a platform, the dumped platform names are bare
    strings and normalizing the dump raises. *)
Theorem normalizing_a_dump_raises (g : GameDetailsResponse) :
  platforms g <> [] ->
  create_game_objects_from_search_results (JList [dump_details g])
  = Raise (MkExn AttributeError "'str' object has no attribute 'get'").
Proof.
  intros H. destruct g as [n i p pl st ge re m es]. simpl in H.
  destruct pl as [|s pl]; [contradiction|]. reflexivity.
Qed.

(** X8. Reading a dumped description back keeps the name and the
    description but not the id: the dump writes [game_id], the reader looks
    up [id] and falls back to zero. *)
Theorem description_dump_read_back (g : GameDescriptionResponse) :
  (forall s, validate_str (JStr s) = Ok s) ->
  (forall z, validate_int (JInt z) = Ok z) ->
  create_description_response_from_json (dump_description g)
  = Ok (MkDescription (d_name g) 0 (d_description g)).
Proof.
  intros Hs Hi. destruct g as [n i d].
  unfold create_description_response_from_json, dump_description. simpl.
  unfold py_or. simpl.
  destruct (String.eqb_spec n "") as [Hn|_]; [subst n|]; simpl;
    rewrite Hs, Hi; simpl;
    (destruct (String.eqb_spec d "") as [Hd|_]; [subst d|]; simpl;
     rewrite Hs; reflexivity).
Qed.

End NormalizerBatches.

(* ===================================================================== *)
(** * More on the tool handlers *)
(* ===================================================================== *)

Section HandlerOutcomes.
Context {E : Env}.
Import Tools.

(** X9. [get_game_description] never raises: whatever the network and
    the payload are, it returns an envelope, and that envelope is either a
    success with results or a failure with a reason. *)
Theorem get_game_description_never_raises (game_id : json) (w : world) :
  exists envelope w',
    get_game_description game_id w = (Ok envelope, w')
    /\ ((exists results, envelope = success results)
        \/ (exists failure_reason, envelope = failure failure_reason)).
Proof.
  unfold get_game_description, Database.get_game_details, bind.
  match goal with
  | |- context [Database._make_request_with_retry ?req ?m ?b w] =>
      destruct (client_run req m b w) as (n & db_response & Hrun & _ & _ & Hcase)
  end.
  rewrite Hrun.
  destruct Hcase as [(body & -> & _) | (msg & -> & _)].
  - unfold success_envelope, lift. simpl.
    destruct (truthy body); simpl.
    + unfold try_except, bind, lift, ret.
      destruct (Classes.create_description_response_from_json body) as [d|e];
        eexists; eexists; (split; [reflexivity|]).
      * left. eexists. reflexivity.
      * right. eexists. reflexivity.
    + eexists. eexists. split; [reflexivity|]. right. eexists. reflexivity.
  - eexists. eexists. split; [reflexivity|]. right. eexists. reflexivity.
Qed.

(** X10. A successful response whose body is truthy but not an object (a
    list, a string, a number): [get_game_description] catches the
    [AttributeError] of the normalizer and reports it as a parsing error. *)
Theorem get_game_description_parsing_error (game_id body : json) (w w' : world) :
  Database.get_game_details game_id w = (Ok (success_envelope body), w') ->
  truthy body = true ->
  is_dict body = false ->
  get_game_description game_id w
  = (Ok (failure ("Parsing error: '" ++ type_name body
                  ++ "' object has no attribute 'get'")), w').
Proof.
  intros Hrun Htruthy Hdict. unfold get_game_description, bind. rewrite Hrun.
  unfold success_envelope, lift. simpl. rewrite Htruthy. simpl.
  destruct body; try discriminate; reflexivity.
Qed.

(** X11. [find_game_by_name] has no such guard: when the body of a
    successful response is not an object (null included), reading its
    [results] raises an [AttributeError] that leaves the handler. *)
Theorem find_game_by_name_raises_on_non_object (game_name body : json) (w w' : world) :
  Database.search_game_by_name game_name w = (Ok (success_envelope body), w') ->
  is_dict body = false ->
  find_game_by_name game_name w
  = (Raise (MkExn AttributeError
              ("'" ++ type_name body ++ "' object has no attribute 'get'")), w').
Proof.
  intros Hrun Hdict. unfold find_game_by_name, bind. rewrite Hrun.
  unfold success_envelope, lift, nested_results. simpl.
  destruct body; try discriminate; reflexivity.
Qed.

(** X12. Nor does it catch what the normalizer raises: an exception
    raised while the matches are normalized leaves [find_game_by_name]
    unchanged. *)
Theorem find_game_by_name_propagates (game_name rawg_payload : json)
    (kv : list (string * json)) (w w' : world) (e : exn) :
  Database.search_game_by_name game_name w = (Ok (success_envelope (JObj kv)), w') ->
  assoc "results" kv = Some rawg_payload ->
  Classes.create_game_objects_from_search_results rawg_payload = Raise e ->
  find_game_by_name game_name w = (Raise e, w').
Proof.
  intros Hrun Hres Hparse. unfold find_game_by_name, bind. rewrite Hrun.
  unfold success_envelope, lift, nested_results. simpl. rewrite Hres. simpl.
  destruct (truthy rawg_payload) eqn:Htruthy; simpl.
  - rewrite Hparse. reflexivity.
  - unfold Classes.create_game_objects_from_search_results in Hparse.
    rewrite Htruthy in Hparse. discriminate.
Qed.

(** X13. The whole path of [find_game_by_name] on a successful search
    whose matches have the accepted shape: the envelope holds the dumps of
    the canonical records of the first three matches. *)
Theorem find_game_by_name_first_three (game_name : json) (kv : list (string * json))
    (records : list json) (w w' : world) :
  (forall s, validate_str (JStr s) = Ok s) ->
  (forall z, validate_int (JInt z) = Ok z) ->
  Database.search_game_by_name game_name w = (Ok (success_envelope (JObj kv)), w') ->
  assoc "results" kv = Some (JList records) ->
  records <> [] ->
  forallb shaped_record records = true ->
  find_game_by_name game_name w
  = (Ok (success (JList (map Classes.dump_details
                           (map normalized (firstn 3 records))))), w').
Proof.
  intros Hs Hi Hrun Hres Hne Hshape. rewrite <- firstn_map.
  unfold find_game_by_name, bind. rewrite Hrun.
  unfold success_envelope, lift, nested_results. simpl. rewrite Hres. simpl.
  destruct records as [|result records]; [contradiction|].
  simpl truthy. simpl negb. cbv iota.
  rewrite (@create_game_objects_shaped E Hs Hi (result :: records) Hshape).
  reflexivity.
Qed.

End HandlerOutcomes.

Section MultiFilterSearch.
Context {E : Env}.
Import Tools.

Lemma collect_ids_known (table : string -> option Z) (slugs : list string) :
  forall ids, collect_ids table (map JStr slugs) ids = Ok (ids ++ known_ids table slugs).
Proof.
  induction slugs as [|s slugs IH]; simpl; intros ids.
  - rewrite app_nil_r. reflexivity.
  - destruct (table s) as [id|]; rewrite IH.
    + rewrite <- app_assoc. reflexivity.
    + reflexivity.
Qed.

Lemma known_ids_length (table : string -> option Z) (slugs : list string) :
  length (known_ids table slugs) <= length slugs.
Proof.
  induction slugs as [|s slugs IH]; simpl; [lia|].
  destruct (table s); simpl; lia.
Qed.

(** X14. On a list of string slugs the three id conversions never raise:
    they return the ids of the slugs that their table knows, in the order
    of the slugs, and drop the others, so never more ids than slugs. *)
Theorem slug_ids_known_only (slugs : list string) :
  _get_platform_ids (map JStr slugs) = Ok (known_ids PLATFORM_SLUG_TO_ID slugs)
  /\ _get_parent_platform_ids (map JStr slugs)
     = Ok (known_ids PARENT_PLATFORM_SLUG_TO_ID slugs)
  /\ _get_store_ids (map JStr slugs) = Ok (known_ids STORE_SLUG_TO_ID slugs)
  /\ length (known_ids PLATFORM_SLUG_TO_ID slugs) <= length slugs
  /\ length (known_ids PARENT_PLATFORM_SLUG_TO_ID slugs) <= length slugs
  /\ length (known_ids STORE_SLUG_TO_ID slugs) <= length slugs.
Proof.
  unfold _get_platform_ids, _get_parent_platform_ids, _get_store_ids.
  rewrite !collect_ids_known. simpl.
  repeat split; apply known_ids_length.
Qed.

Lemma collect_ids_strs (table : string -> option Z) (l : list json) :
  forall ids, forallb is_str l = true -> exists ids', collect_ids table l ids = Ok ids'.
Proof.
  induction l as [|v l IH]; simpl; intros ids H.
  - eexists; reflexivity.
  - apply andb_true_iff in H as [Hv Hl].
    destruct v; try discriminate. simpl.
    destruct (table s); apply IH; assumption.
Qed.

Lemma all_strs_from_non_str (l : list json) :
  forall i, forallb is_str l = false ->
            exists msg, all_strs_from i l = Raise (MkExn TypeError msg).
Proof.
  induction l as [|v l IH]; simpl; intros i H; [discriminate|].
  destruct v; try (eexists; reflexivity).
  simpl in H. destruct (IH (S i) H) as [msg Hmsg]. rewrite Hmsg.
  eexists; reflexivity.
Qed.

(** X15. A developer filter with an item that is not a string, the slug
    filters being strings: joining the developers raises a [TypeError] that
    leaves [find_multiple_games], and no request is sent. *)
Theorem find_multiple_games_non_string_developer (a : filters) (w : world) :
  forallb is_str (_normalize_list_param (parent_platforms a)) = true ->
  forallb is_str (_normalize_list_param (platforms a)) = true ->
  forallb is_str (_normalize_list_param (stores a)) = true ->
  forallb is_str (_normalize_list_param (developers a)) = false ->
  exists msg, find_multiple_games a w = (Raise (MkExn TypeError msg), w).
Proof.
  intros Hpp Hpl Hst Hdev.
  unfold find_multiple_games, find_multiple_games_normalized, bind, lift.
  unfold _get_parent_platform_ids, _get_platform_ids, _get_store_ids.
  destruct (collect_ids_strs PARENT_PLATFORM_SLUG_TO_ID _ [] Hpp) as [i1 H1].
  destruct (collect_ids_strs PLATFORM_SLUG_TO_ID _ [] Hpl) as [i2 H2].
  destruct (collect_ids_strs STORE_SLUG_TO_ID _ [] Hst) as [i3 H3].
  rewrite H1, H2, H3.
  unfold Database.find_multiple_games_by_conditions, bind, lift. cbv zeta.
  unfold Database.add_slugs at 1, join.
  destruct (_normalize_list_param (developers a)) as [|v l]; [discriminate|].
  destruct (all_strs_from_non_str (v :: l) 0 Hdev) as [msg Hmsg].
  rewrite Hmsg. exists msg. reflexivity.
Qed.

Lemma add_not_none_suffix (k : string) (v : json) (sp : list (string * json)) :
  In k optional_params ->
  exists x, Database.add_not_none k v sp = sp ++ x /\ incl (map fst x) optional_params.
Proof.
  intros Hk. destruct v;
    try (exists [(k, JNull)]; fail);
    first [ exists []; split; [symmetry; apply app_nil_r | intros y []]
          | eexists; split; [reflexivity|]; intros y [<-|[]]; exact Hk ].
Qed.

Lemma add_ids_suffix (k : string) (ids : list Z) (sp : list (string * json)) :
  In k optional_params ->
  exists x, Database.add_ids k ids sp = sp ++ x /\ incl (map fst x) optional_params.
Proof.
  intros Hk. destruct ids.
  - exists []. split; [symmetry; apply app_nil_r | intros y []].
  - eexists. split; [reflexivity|]. intros y [<-|[]]. exact Hk.
Qed.

Lemma add_slugs_suffix (k : string) (l : list json) (sp sp' : list (string * json)) :
  In k optional_params ->
  Database.add_slugs k l sp = Ok sp' ->
  exists x, sp' = sp ++ x /\ incl (map fst x) optional_params.
Proof.
  intros Hk. unfold Database.add_slugs. destruct l.
  - intros H. inversion H. exists []. split; [symmetry; apply app_nil_r | intros y []].
  - destruct (join "," (j :: l)) as [joined|e]; [|discriminate].
    simpl. intros H. inversion H.
    eexists. split; [reflexivity|]. intros y [<-|[]]. exact Hk.
Qed.

(** The multi-filter search raises before any GET, or is the retrying GET
    on a request that carries the five base parameters followed by some of
    the optional ones. *)
Lemma find_multiple_games_by_conditions_request
    (lo hi mlo mhi page_size title : json) (pp pl st : list Z)
    (dev pub gen tag : list json) (ordering : json) (w : world) :
  (exists e,
      Database.find_multiple_games_by_conditions lo hi mlo mhi page_size title
        pp pl st dev pub gen tag ordering w = (Raise e, w))
  \/ (exists suffix,
        incl (map fst suffix) optional_params
        /\ Database.find_multiple_games_by_conditions lo hi mlo mhi page_size title
             pp pl st dev pub gen tag ordering w
           = Database._make_request_with_retry
               (MkRequest Database.RAWG_GAMES_API_BASE_URL
                  ([("key", rawg_api_key);
                    ("page_size", page_size);
                    ("dates", JStr (py_str lo ++ "," ++ py_str hi));
                    ("metacritic", JStr (py_str mlo ++ "," ++ py_str mhi));
                    ("exclude_additions", JBool true)] ++ suffix))
               Database.default_max_retries Database.default_base_delay w).
Proof.
  unfold Database.find_multiple_games_by_conditions. cbv zeta.
  unfold bind, lift.
  match goal with
  | |- context [Database.add_not_none "search" title ?base] =>
      destruct (@add_not_none_suffix "search" title base) as (x1 & -> & I1);
        [simpl; tauto|]
  end.
  match goal with
  | |- context [Database.add_ids "parent_platforms" pp ?sp] =>
      destruct (@add_ids_suffix "parent_platforms" pp sp) as (x2 & -> & I2);
        [simpl; tauto|]
  end.
  match goal with
  | |- context [Database.add_ids "platforms" pl ?sp] =>
      destruct (@add_ids_suffix "platforms" pl sp) as (x3 & -> & I3); [simpl; tauto|]
  end.
  match goal with
  | |- context [Database.add_ids "stores" st ?sp] =>
      destruct (@add_ids_suffix "stores" st sp) as (x4 & -> & I4); [simpl; tauto|]
  end.
  destruct (Database.add_slugs "developers" dev _) as [s1|e] eqn:H1;
    [|left; eexists; reflexivity].
  apply add_slugs_suffix in H1 as (x5 & -> & I5); [|simpl; tauto].
  destruct (Database.add_slugs "publishers" pub _) as [s2|e] eqn:H2;
    [|left; eexists; reflexivity].
  apply add_slugs_suffix in H2 as (x6 & -> & I6); [|simpl; tauto].
  destruct (Database.add_slugs "genres" gen _) as [s3|e] eqn:H3;
    [|left; eexists; reflexivity].
  apply add_slugs_suffix in H3 as (x7 & -> & I7); [|simpl; tauto].
  destruct (Database.add_slugs "tags" tag _) as [s4|e] eqn:H4;
    [|left; eexists; reflexivity].
  apply add_slugs_suffix in H4 as (x8 & -> & I8); [|simpl; tauto].
  match goal with
  | |- context [Database.add_not_none "ordering" ordering ?sp] =>
      destruct (@add_not_none_suffix "ordering" ordering sp) as (x9 & -> & I9);
        [simpl; tauto|]
  end.
  right. exists (x1 ++ x2 ++ x3 ++ x4 ++ x5 ++ x6 ++ x7 ++ x8 ++ x9). split.
  - rewrite !map_app. repeat apply incl_app; assumption.
  - rewrite <- !app_assoc. reflexivity.
Qed.

Lemma find_multiple_games_request (a : filters) (w : world) :
  (exists e, find_multiple_games a w = (Raise e, w))
  \/ (exists suffix,
        incl (map fst suffix) optional_params
        /\ find_multiple_games a w
           = bind (Database._make_request_with_retry
                     (MkRequest Database.RAWG_GAMES_API_BASE_URL (base_params a ++ suffix))
                     Database.default_max_retries Database.default_base_delay)
                  read_matches w).
Proof.
  unfold find_multiple_games, find_multiple_games_normalized, bind, lift.
  destruct (_get_parent_platform_ids _) as [i1|e]; [|left; eexists; reflexivity].
  destruct (_get_platform_ids _) as [i2|e]; [|left; eexists; reflexivity].
  destruct (_get_store_ids _) as [i3|e]; [|left; eexists; reflexivity].
  cbv beta iota.
  match goal with
  | |- context [Database.find_multiple_games_by_conditions ?lo ?hi ?mlo ?mhi ?ps ?ti
                  ?pp ?pl ?st ?dev ?pub ?gen ?tag ?ord w] =>
      destruct (find_multiple_games_by_conditions_request lo hi mlo mhi ps ti
                  pp pl st dev pub gen tag ord w)
        as [[e He] | (suffix & Hincl & Hreq)]
  end.
  - left. exists e. rewrite He. reflexivity.
  - right. exists suffix. split; [exact Hincl|]. rewrite Hreq. reflexivity.
Qed.

Lemma read_matches_pure (db_response : json) (w : world) :
  snd (read_matches db_response w) = w.
Proof.
  unfold read_matches, bind, lift, database_error, ret.
  destruct (nested_results db_response); [|reflexivity].
  destruct (get db_response "success"); [|reflexivity].
  destruct (negb (truthy a0) || negb (truthy a)).
  - unfold bind, lift. destruct (get_default db_response "error" _); reflexivity.
  - destruct (Classes.create_game_objects_from_search_results a) as [[|g gs]|e];
      reflexivity.
Qed.

(** X16. Whenever [find_multiple_games] sends a request, the first thing
    it does is a GET on the games endpoint whose parameters start with the
    API key, the page size, the date range and the score range (an unset
    bound replaced by 1800-01-01, 3000-01-01, 0 or 100) and
    [exclude_additions]; what follows are optional filters only, which
    never shadow those five. *)
Theorem find_multiple_games_sends_base_params (a : filters) (w : world) :
  gets (snd (find_multiple_games a w)) <> gets w ->
  exists suffix rest,
    events (snd (find_multiple_games a w))
    = events w
      ++ EvGet (MkRequest Database.RAWG_GAMES_API_BASE_URL (base_params a ++ suffix))
         :: rest
    /\ incl (map fst suffix) optional_params
    /\ (forall k, In k (map fst (base_params a)) -> ~ In k (map fst suffix)).
Proof.
  intros Hsent.
  destruct (find_multiple_games_request a w) as [[e He] | (suffix & Hincl & Hreq)].
  - rewrite He in Hsent. simpl in Hsent. contradiction.
  - rewrite Hreq in *. unfold bind in *.
    match type of Hsent with
    | context [Database._make_request_with_retry ?req ?m ?b w] =>
        destruct (client_run req m b w) as (n & db_response & Hrun & _ & _ & _)
    end.
    rewrite Hrun in *.
    pose proof (read_matches_pure db_response
                  (MkWorld (events w
                            ++ attempts_trace
                                 (MkRequest Database.RAWG_GAMES_API_BASE_URL
                                    (base_params a ++ suffix))
                                 Database.default_base_delay (draws w) n)
                           (gets w + n) (draws w + (n - 1)))) as Hpure.
    rewrite Hpure in *. simpl in Hsent.
    destruct n as [|m]; [exfalso; lia|].
    exists suffix. eexists. split; [reflexivity|]. split; [exact Hincl|].
    intros k Hbase Hsuffix. apply Hincl in Hsuffix.
    simpl in Hbase, Hsuffix.
    repeat (destruct Hbase as [Hbase|Hbase]; [subst k;
      repeat (destruct Hsuffix as [Hsuffix|Hsuffix]; [discriminate|]); contradiction|]).
    contradiction.
Qed.

Lemma client_responds (req : request) (body : json) (w : world) :
  http_get (gets w) req = Responded body ->
  Database._make_request_with_retry req Database.default_max_retries
    Database.default_base_delay w
  = (Ok (success_envelope body),
     MkWorld (events w ++ [EvGet req]) (S (gets w)) (draws w)).
Proof.
  intros H. unfold Database._make_request_with_retry. simpl.
  unfold Database.session_get. rewrite H. reflexivity.
Qed.

(** X17. The first GET is answered with a body whose [results] list is
    empty: [find_multiple_games], if it sent a request, reports a database
    error with its own default message. *)
Theorem find_multiple_games_zero_matches (a : filters) (w : world)
    (kv : list (string * json)) :
  (forall req, http_get (gets w) req = Responded (JObj kv)) ->
  assoc "results" kv = Some (JList []) ->
  gets (snd (find_multiple_games a w)) <> gets w ->
  fst (find_multiple_games a w) = Ok (failure "Database error: Unknown database error.").
Proof.
  intros Hnet Hres Hsent.
  destruct (find_multiple_games_request a w) as [[e He] | (suffix & _ & Hreq)].
  - rewrite He in Hsent. simpl in Hsent. contradiction.
  - rewrite Hreq. unfold bind. rewrite (client_responds _ w (Hnet _)).
    unfold read_matches, success_envelope, bind, lift, nested_results. simpl.
    rewrite Hres. reflexivity.
Qed.

(** X18. The first GET is answered with matches of the accepted shape:
    [find_multiple_games], if it sent a request, returns the dumps of the
    canonical records of all of them, however many there are. *)
Theorem find_multiple_games_returns_all (a : filters) (w : world)
    (kv : list (string * json)) (records : list json) :
  (forall s, validate_str (JStr s) = Ok s) ->
  (forall z, validate_int (JInt z) = Ok z) ->
  (forall req, http_get (gets w) req = Responded (JObj kv)) ->
  assoc "results" kv = Some (JList records) ->
  records <> [] ->
  forallb shaped_record records = true ->
  gets (snd (find_multiple_games a w)) <> gets w ->
  fst (find_multiple_games a w)
  = Ok (success (JList (map Classes.dump_details (map normalized records))))
  /\ gets (snd (find_multiple_games a w)) = S (gets w).
Proof.
  intros Hs Hi Hnet Hres Hne Hshape Hsent.
  destruct (find_multiple_games_request a w) as [[e He] | (suffix & _ & Hreq)].
  - rewrite He in Hsent. simpl in Hsent. contradiction.
  - rewrite Hreq. unfold bind. rewrite (client_responds _ w (Hnet _)).
    unfold read_matches, success_envelope, bind, lift, nested_results. simpl.
    rewrite Hres. simpl.
    destruct records as [|result records]; [contradiction|].
    simpl truthy. simpl negb. cbv iota.
    rewrite (@create_game_objects_shaped E Hs Hi (result :: records) Hshape).
    split; reflexivity.
Qed.

End MultiFilterSearch.

(* ===================================================================== *)
(** * More on dispatch and the loop *)
(* ===================================================================== *)

Section DispatchAndLoop.
Context {E : Env}.
Import App.

Lemma existsb_find {A} (f : A -> bool) (l : list A) :
  existsb f l = true -> exists x, find f l = Some x.
Proof.
  induction l as [|a l IH]; simpl; [discriminate|].
  destruct (f a); [intros _; eexists; reflexivity | exact IH].
Qed.

Lemma check_kwargs_unexpected (fname : string) (parameters required : list string)
    (kwargs : list (string * json)) :
  existsb (fun kv => negb (mem (fst kv) parameters)) kwargs = true ->
  exists msg, check_kwargs fname parameters required kwargs = Raise (MkExn TypeError msg).
Proof.
  intros H. destruct (existsb_find _ _ H) as [[k v] Hfind].
  unfold check_kwargs. rewrite Hfind. eexists. reflexivity.
Qed.

(** X19. A call of one of the four tool functions with a keyword that the
    function does not have raises a [TypeError] out of the dispatch, before
    the handler runs: nothing is requested from the provider. *)
Theorem unexpected_keyword_raises (tc : tool_call) (kwargs : list (string * json))
    (w : world) :
  json_loads (tc_arguments tc) = Ok (JObj kwargs) ->
  In (tc_name tc) tool_functions ->
  existsb (fun kv => negb (mem (fst kv) (tool_parameters (tc_name tc)))) kwargs = true ->
  exists msg, handle_tool_call tc w = (Raise (MkExn TypeError msg), w).
Proof.
  intros Hloads Hname Hextra. unfold handle_tool_call, bind, lift. rewrite Hloads.
  simpl in Hname.
  destruct Hname as [Hn | [Hn | [Hn | [Hn | []]]]]; rewrite <- Hn in *.
  - change (tool_parameters "get_current_date") with (@nil string) in Hextra.
    destruct (@check_kwargs_unexpected "get_current_date" [] [] kwargs Hextra)
      as [msg Hmsg].
    change (globals_get "get_current_date")
      with (Some (PyCallable call_get_current_date)).
    unfold invoke, call_get_current_date, bind, lift. rewrite Hmsg.
    exists msg. reflexivity.
  - change (tool_parameters "get_game_description") with ["game_id"] in Hextra.
    destruct (@check_kwargs_unexpected "get_game_description" ["game_id"] ["game_id"]
                kwargs Hextra) as [msg Hmsg].
    change (globals_get "get_game_description")
      with (Some (PyCallable call_get_game_description)).
    unfold invoke, call_get_game_description, bind, lift. rewrite Hmsg.
    exists msg. reflexivity.
  - change (tool_parameters "find_game_by_name") with ["game_name"] in Hextra.
    destruct (@check_kwargs_unexpected "find_game_by_name" ["game_name"] ["game_name"]
                kwargs Hextra) as [msg Hmsg].
    change (globals_get "find_game_by_name")
      with (Some (PyCallable call_find_game_by_name)).
    unfold invoke, call_find_game_by_name, bind, lift. rewrite Hmsg.
    exists msg. reflexivity.
  - change (tool_parameters "find_multiple_games") with filter_names in Hextra.
    destruct (@check_kwargs_unexpected "find_multiple_games" filter_names []
                kwargs Hextra) as [msg Hmsg].
    change (globals_get "find_multiple_games")
      with (Some (PyCallable call_find_multiple_games)).
    unfold invoke, call_find_multiple_games, bind, lift. rewrite Hmsg.
    exists msg. reflexivity.
Qed.

Lemma handle_tool_calls_from_app (xs ys : list tool_call) :
  forall (acc : list turn) (w : world),
    handle_tool_calls_from (xs ++ ys) acc w
    = match handle_tool_calls_from xs acc w with
      | (Ok results, w1) => handle_tool_calls_from ys results w1
      | (Raise e, w1) => (Raise e, w1)
      end.
Proof.
  induction xs as [|tc xs IH]; simpl; intros acc w; [reflexivity|].
  unfold bind. destruct (handle_tool_call tc w) as [[t|e] w1]; [apply IH | reflexivity].
Qed.

(** X20. A call that raises discards its whole round: the calls before it
    have run, the calls after it are not made, nothing of the round (not
    even the model's message) is appended, and [chat] stops with the
    exception. *)
Theorem raising_call_discards_round (fuel : nat) (messages : list turn) (rsp : response)
    (pre post : list tool_call) (tc : tool_call) (done : list turn)
    (w w1 w2 : world) (e : exn) :
  llm messages = Ok rsp ->
  finish_reason rsp = "tool_calls" ->
  tool_calls (r_message rsp) = Some (pre ++ tc :: post) ->
  handle_tool_calls_from pre [] w = (Ok done, w1) ->
  handle_tool_call tc w1 = (Raise e, w2) ->
  chat_loop (S fuel) messages w = Some (MkStop (Raise e) messages w2).
Proof.
  intros Hllm Hfin Htcs Hpre Htc. simpl. rewrite Hllm, Hfin, Htcs. simpl.
  rewrite handle_tool_calls_from_app, Hpre. simpl. unfold bind. rewrite Htc.
  reflexivity.
Qed.

(** X21. The loop has no bound of its own: as long as every response of
    the model asks for tools and the calls do not raise, no amount of fuel
    makes [chat] stop. *)
Theorem chat_runs_while_tools_are_requested :
  (forall messages w,
      exists rsp results w',
        llm messages = Ok rsp
        /\ finish_reason rsp = "tool_calls"
        /\ handle_tool_calls (tool_calls (r_message rsp)) w = (Ok results, w')) ->
  forall fuel message history w, chat fuel message history w = None.
Proof.
  intros Hmodel fuel message history. unfold chat.
  generalize (initial_messages message history).
  induction fuel as [|fuel IH]; intros messages w; simpl; [reflexivity|].
  destruct (Hmodel messages w) as (rsp & results & w' & Hllm & Hfin & Hrun).
  rewrite Hllm, Hfin, Hrun. simpl. apply IH.
Qed.

End DispatchAndLoop.

Section SearchEnvelopes.
Context {E : Env}.
Import Tools.

Lemma database_error_outcome (db_response : json) (default : string) (w w' : world)
    (envelope : json) :
  database_error db_response default w = (Ok envelope, w') ->
  exists m, envelope = failure ("Database error: " ++ m).
Proof.
  unfold database_error, bind, lift, ret.
  destruct (get_default db_response "error" (JStr default)) as [m|e]; [|discriminate].
  intros H. inversion H. eexists. reflexivity.
Qed.

Lemma read_matches_outcome (db_response : json) (w w' : world) (envelope : json) :
  read_matches db_response w = (Ok envelope, w') ->
  (exists m, envelope = failure ("Database error: " ++ m))
  \/ (exists g gs,
        envelope = success (JList (Classes.dump_details g :: map Classes.dump_details gs))).
Proof.
  unfold read_matches, bind, lift.
  destruct (nested_results db_response) as [rawg_payload|e]; [|discriminate].
  destruct (get db_response "success") as [ok|e]; [|discriminate].
  destruct (truthy rawg_payload) eqn:Htruthy.
  - destruct (negb (truthy ok)); simpl orb; cbv iota.
    + intros H. left. exact (database_error_outcome _ _ _ H).
    + destruct (Classes.create_game_objects_from_search_results rawg_payload)
        as [[|g gs]|e] eqn:Hparse; try discriminate.
      * apply no_games_only_from_falsy in Hparse. congruence.
      * unfold ret. intros H. inversion H. right. exists g, gs. reflexivity.
  - rewrite orb_true_r. intros H. left. exact (database_error_outcome _ _ _ H).
Qed.

(** X23. Whenever one of the two search handlers returns, its envelope
    is a failure whose reason starts with [Database error: ], or a success
    whose results are a list of at least one game dump: an empty success
    and a parse failure are never returned. *)
Theorem search_handlers_envelopes (game_name : json) (a : filters) (w w' : world)
    (envelope : json) :
  find_game_by_name game_name w = (Ok envelope, w')
  \/ find_multiple_games a w = (Ok envelope, w') ->
  (exists m, envelope = failure ("Database error: " ++ m))
  \/ (exists g gs,
        envelope = success (JList (Classes.dump_details g :: map Classes.dump_details gs))).
Proof.
  intros [H | H].
  - revert H. unfold find_game_by_name, bind, lift.
    destruct (Database.search_game_by_name game_name w) as [[db_response|e] w1];
      [|discriminate].
    destruct (nested_results db_response) as [rawg_payload|e]; [|discriminate].
    destruct (get db_response "success") as [ok|e]; [|discriminate].
    destruct (truthy rawg_payload) eqn:Htruthy.
    + destruct (negb (truthy ok)); simpl orb; cbv iota.
      * intros H. left. exact (database_error_outcome _ _ _ H).
      * destruct (Classes.create_game_objects_from_search_results rawg_payload)
          as [[|g gs]|e] eqn:Hparse; try discriminate.
        -- apply no_games_only_from_falsy in Hparse. congruence.
        -- unfold ret. intros H. inversion H. right.
           exists g, (firstn 2 gs). reflexivity.
    + rewrite orb_true_r. intros H. left. exact (database_error_outcome _ _ _ H).
  - destruct (find_multiple_games_request a w) as [[e He] | (suffix & _ & Hreq)].
    + rewrite He in H. discriminate.
    + rewrite Hreq in H. unfold bind in H.
      destruct (Database._make_request_with_retry _ _ _ w) as [[db_response|e] w1];
        [|discriminate].
      exact (read_matches_outcome _ _ H).
Qed.

End SearchEnvelopes.

Section MissingArguments.
Context {E : Env}.
Import App.

Lemma assoc_none_not_mem {A} (k : string) (kv : list (string * A)) :
  assoc k kv = None -> mem k (map fst kv) = false.
Proof.
  induction kv as [|[k' v] kv IH]; simpl; [reflexivity|].
  destruct (String.eqb k k'); [discriminate | exact IH].
Qed.

Lemma check_kwargs_missing (fname p : string) (kwargs : list (string * json)) :
  assoc p kwargs = None ->
  exists msg, check_kwargs fname [p] [p] kwargs = Raise (MkExn TypeError msg).
Proof.
  intros H. unfold check_kwargs.
  destruct (find _ kwargs) as [[k v]|]; [eexists; reflexivity|].
  simpl. rewrite (assoc_none_not_mem _ _ H). simpl. eexists. reflexivity.
Qed.

(** X22. A call of [get_game_description] or [find_game_by_name] whose
    arguments lack the one required argument raises a [TypeError] out of the
    dispatch, whatever else the arguments hold, and nothing is requested. *)
Theorem missing_argument_raises (tc : tool_call) (kwargs : list (string * json))
    (w : world) :
  json_loads (tc_arguments tc) = Ok (JObj kwargs) ->
  (tc_name tc = "get_game_description" /\ assoc "game_id" kwargs = None)
  \/ (tc_name tc = "find_game_by_name" /\ assoc "game_name" kwargs = None) ->
  exists msg, handle_tool_call tc w = (Raise (MkExn TypeError msg), w).
Proof.
  intros Hloads Hname. unfold handle_tool_call, bind, lift. rewrite Hloads.
  destruct Hname as [[-> Hmiss] | [-> Hmiss]].
  - destruct (check_kwargs_missing "get_game_description" _ _ Hmiss) as [msg Hmsg].
    change (globals_get "get_game_description")
      with (Some (PyCallable call_get_game_description)).
    unfold invoke, call_get_game_description, bind, lift. rewrite Hmsg.
    exists msg. reflexivity.
  - destruct (check_kwargs_missing "find_game_by_name" _ _ Hmiss) as [msg Hmsg].
    change (globals_get "find_game_by_name")
      with (Some (PyCallable call_find_game_by_name)).
    unfold invoke, call_find_game_by_name, bind, lift. rewrite Hmsg.
    exists msg. reflexivity.
Qed.

End MissingArguments.

(* ===================================================================== *)
(** * The further statements at concrete inputs *)
(* ===================================================================== *)

Lemma backoff_schedule_witness :
  backoff_in_range 3 1%Q
  /\ length (events (snd (@Database._make_request_with_retry
                            (Demo.flaky (Demo.search_body [])) Demo.probe 3 1%Q Demo.w0)))
     = 5
  /\ nth_error (events (snd (@Database._make_request_with_retry
                               (Demo.flaky (Demo.search_body [])) Demo.probe 3 1%Q Demo.w0)))
       0
     = Some (EvGet Demo.probe)
  /\ nth_error (events (snd (@Database._make_request_with_retry
                               (Demo.flaky (Demo.search_body [])) Demo.probe 3 1%Q Demo.w0)))
       1
     = Some (EvSleep (1 * inject_Z (2 ^ 0) + uniform 0 (1 # 10) (1 # 4))%Q)
  /\ nth_error (events (snd (@Database._make_request_with_retry
                               (Demo.flaky (Demo.search_body [])) Demo.probe 3 1%Q Demo.w0)))
       2
     = Some (EvGet Demo.probe)
  /\ nth_error (events (snd (@Database._make_request_with_retry
                               (Demo.flaky (Demo.search_body [])) Demo.probe 3 1%Q Demo.w0)))
       3
     = Some (EvSleep (1 * inject_Z (2 ^ 1) + uniform 0 (1 # 10) (1 # 4))%Q)
  /\ nth_error (events (snd (@Database._make_request_with_retry
                               (Demo.flaky (Demo.search_body [])) Demo.probe 3 1%Q Demo.w0)))
       4
     = Some (EvGet Demo.probe)
  /\ (1 * inject_Z (2 ^ 0) + uniform 0 (1 # 10) (1 # 4) == 41 # 40)%Q
  /\ (1 * inject_Z (2 ^ 1) + uniform 0 (1 # 10) (1 # 4) == 81 # 40)%Q
  /\ (1 * inject_Z (2 ^ 0) + uniform 0 (1 # 10) (1 # 4)
      < 1 * inject_Z (2 ^ 1) + uniform 0 (1 # 10) (1 # 4))%Q.
Proof.
  assert (backoff_in_range 3 1%Q) as Hrange
    by (repeat split; try (unfold Qle; simpl; lia); lia).
  assert (forall n, (0 <= @random (Demo.flaky (Demo.search_body [])) n)%Q
                    /\ (@random (Demo.flaky (Demo.search_body [])) n < 1)%Q) as Hrand
    by (intros n; split; [intros H; discriminate H | reflexivity]).
  assert (Z.of_nat 2 < 3)%Z as Hlt by lia.
  assert (forall i, i < 2 ->
            @http_get (Demo.flaky (Demo.search_body [])) (gets Demo.w0 + i) Demo.probe
            = Failed (Demo.flaky_errors i)) as Hfail
    by (intros i Hi; destruct i as [|[|i]]; [reflexivity | reflexivity | lia]).
  pose proof (@backoff_schedule (Demo.flaky (Demo.search_body [])) Demo.probe 3%Z 1%Q
                Demo.w0 2 Demo.flaky_errors Hrange Hrand Hlt Hfail) as H.
  cbv zeta in H.
  destruct H as (n & new & HN & Hle & _ & Hev & Hlen & Hfirst & Hk & Hinc).
  change (Z.to_nat 3) with 3 in Hle.
  assert (n = 3) as Hn by lia. subst n.
  destruct (Hk 2 ltac:(lia)) as (Hs2 & Hg2 & _).
  destruct (Hk 3 ltac:(lia)) as (Hs3 & Hg3 & _).
  rewrite Hev.
  split; [exact Hrange|]. split; [exact Hlen|]. split; [exact Hfirst|].
  split; [exact Hs2|]. split; [exact Hg2|]. split; [exact Hs3|]. split; [exact Hg3|].
  split; [reflexivity|]. split; [reflexivity|].
  exact (Hinc eq_refl 2 (le_n 2)).
Defined.


Lemma retry_effects_bounded_witness :
  backoff_in_range 3 1%Q
  /\ exists n new,
      events (snd (@Database._make_request_with_retry Demo.offline Demo.probe 3 1%Q
                     Demo.w0))
      = events Demo.w0 ++ new
      /\ gets (snd (@Database._make_request_with_retry Demo.offline Demo.probe 3 1%Q
                      Demo.w0))
         = gets Demo.w0 + n
      /\ draws (snd (@Database._make_request_with_retry Demo.offline Demo.probe 3 1%Q
                       Demo.w0))
         = draws Demo.w0 + (n - 1)
      /\ n <= Z.to_nat 3
      /\ ((0 < 3)%Z -> 0 < n)
      /\ count_gets new = n
      /\ count_sleeps new = n - 1
      /\ (0 < n -> last new (EvSleep 0%Q) = EvGet Demo.probe).
Proof.
  assert (backoff_in_range 3 1%Q) as Hrange
    by (repeat split; try (unfold Qle; simpl; lia); lia).
  split; [exact Hrange|].
  exact (@retry_effects_bounded Demo.offline Demo.probe 3%Z 1%Q Demo.w0 Hrange).
Defined.

Lemma retry_without_attempts_witness :
  (0 <= 0)%Z
  /\ @Database._make_request_with_retry Demo.offline Demo.probe 0 1%Q Demo.w0
     = (Ok (JObj [("success", JBool false); ("error", JStr "None")]), Demo.w0).
Proof.
  split; [lia|].
  apply (@retry_without_attempts Demo.offline Demo.probe 0%Z 1%Q Demo.w0). lia.
Defined.


Lemma create_game_objects_one_per_record_witness :
  length (map normalized Demo.sparse_records) = length Demo.sparse_records
  /\ Forall2 (fun result g => @Classes.game_details_of Demo.offline result = Ok g)
       Demo.sparse_records (map normalized Demo.sparse_records).
Proof.
  apply (@create_game_objects_one_per_record Demo.offline Demo.sparse_records
           (map normalized Demo.sparse_records)).
  reflexivity.
Defined.

Lemma create_game_objects_first_failure_witness :
  @Classes.create_game_objects_from_search_results Demo.offline
    (JList ([Demo.game "Celeste" 1] ++ Demo.unwrapped_record :: [JObj []]))
  = Raise (MkExn AttributeError "'str' object has no attribute 'get'").
Proof.
  apply (@create_game_objects_first_failure Demo.offline); reflexivity.
Defined.

Lemma normalizing_a_dump_raises_witness :
  @Classes.create_game_objects_from_search_results Demo.offline
    (JList [Classes.dump_details
              (Classes.MkDetails "Celeste" 1 0 ["PC"] [] [] "" None None)])
  = Raise (MkExn AttributeError "'str' object has no attribute 'get'").
Proof.
  apply (@normalizing_a_dump_raises Demo.offline
           (Classes.MkDetails "Celeste" 1 0 ["PC"] [] [] "" None None)).
  discriminate.
Defined.

Lemma description_dump_read_back_witness :
  @Classes.create_description_response_from_json Demo.offline
    (Classes.dump_description (Classes.MkDescription "Celeste" 7 "A mountain."))
  = Ok (Classes.MkDescription "Celeste" 0 "A mountain.").
Proof.
  apply (@description_dump_read_back Demo.offline
           (Classes.MkDescription "Celeste" 7 "A mountain."));
    intros; reflexivity.
Defined.

Lemma get_game_description_parsing_error_witness :
  @Tools.get_game_description (Demo.online (JList [JInt 1])) (JInt 7) Demo.w0
  = (Ok (Tools.failure "Parsing error: 'list' object has no attribute 'get'"),
     snd (@Database.get_game_details (Demo.online (JList [JInt 1])) (JInt 7) Demo.w0)).
Proof.
  apply (@get_game_description_parsing_error (Demo.online (JList [JInt 1]))
           (JInt 7) (JList [JInt 1]) Demo.w0);
    reflexivity.
Defined.

Lemma find_game_by_name_raises_on_non_object_witness :
  @Tools.find_game_by_name (Demo.online JNull) (JStr "Celeste") Demo.w0
  = (Raise (MkExn AttributeError "'NoneType' object has no attribute 'get'"),
     snd (@Database.search_game_by_name (Demo.online JNull) (JStr "Celeste") Demo.w0)).
Proof.
  apply (@find_game_by_name_raises_on_non_object (Demo.online JNull)
           (JStr "Celeste") JNull Demo.w0);
    reflexivity.
Defined.

Lemma find_game_by_name_propagates_witness :
  @Tools.find_game_by_name (Demo.online (Demo.search_body [Demo.null_wrapper_record]))
    (JStr "Celeste") Demo.w0
  = (Raise (MkExn AttributeError "'NoneType' object has no attribute 'get'"),
     snd (@Database.search_game_by_name
            (Demo.online (Demo.search_body [Demo.null_wrapper_record]))
            (JStr "Celeste") Demo.w0)).
Proof.
  apply (@find_game_by_name_propagates
           (Demo.online (Demo.search_body [Demo.null_wrapper_record]))
           (JStr "Celeste") (JList [Demo.null_wrapper_record])
           [("count", JInt 1); ("results", JList [Demo.null_wrapper_record])] Demo.w0);
    reflexivity.
Defined.

Lemma find_game_by_name_first_three_witness :
  @Tools.find_game_by_name (Demo.online (Demo.search_body Demo.four_games))
    (JStr "Celeste") Demo.w0
  = (Ok (Tools.success
           (JList (map Classes.dump_details (map normalized (firstn 3 Demo.four_games))))),
     snd (@Database.search_game_by_name (Demo.online (Demo.search_body Demo.four_games))
            (JStr "Celeste") Demo.w0)).
Proof.
  apply (@find_game_by_name_first_three
           (Demo.online (Demo.search_body Demo.four_games)) (JStr "Celeste")
           [("count", JInt 4); ("results", JList Demo.four_games)] Demo.four_games Demo.w0);
    try (intros; reflexivity).
  discriminate.
Defined.

Lemma find_multiple_games_non_string_developer_witness :
  exists msg,
    @Tools.find_multiple_games Demo.offline
      (App.filters_of [("platforms", JStr "pc"); ("developers", JInt 3)]) Demo.w0
    = (Raise (MkExn TypeError msg), Demo.w0).
Proof.
  apply (@find_multiple_games_non_string_developer Demo.offline); reflexivity.
Defined.

Lemma find_multiple_games_sends_base_params_witness :
  gets (snd (@Tools.find_multiple_games Demo.offline
               (App.filters_of [("platforms", JStr "pc")]) Demo.w0))
  <> gets Demo.w0
  /\ exists suffix rest,
       events (snd (@Tools.find_multiple_games Demo.offline
                      (App.filters_of [("platforms", JStr "pc")]) Demo.w0))
       = events Demo.w0
         ++ EvGet (MkRequest Database.RAWG_GAMES_API_BASE_URL
                     (@base_params Demo.offline (App.filters_of [("platforms", JStr "pc")])
                      ++ suffix))
            :: rest
       /\ incl (map fst suffix) optional_params
       /\ (forall k,
             In k (map fst (@base_params Demo.offline
                              (App.filters_of [("platforms", JStr "pc")]))) ->
             ~ In k (map fst suffix)).
Proof.
  assert (gets (snd (@Tools.find_multiple_games Demo.offline
                       (App.filters_of [("platforms", JStr "pc")]) Demo.w0))
          <> gets Demo.w0) as Hsent by (intros H; discriminate H).
  split; [exact Hsent|].
  exact (@find_multiple_games_sends_base_params Demo.offline _ Demo.w0 Hsent).
Defined.

Lemma find_multiple_games_zero_matches_witness :
  fst (@Tools.find_multiple_games (Demo.online (Demo.search_body []))
         (App.filters_of [("genres", JStr "indie")]) Demo.w0)
  = Ok (Tools.failure "Database error: Unknown database error.").
Proof.
  apply (@find_multiple_games_zero_matches (Demo.online (Demo.search_body []))
           (App.filters_of [("genres", JStr "indie")]) Demo.w0
           [("count", JInt 0); ("results", JList [])]).
  - intros req. reflexivity.
  - reflexivity.
  - intros H. discriminate H.
Defined.

Lemma find_multiple_games_returns_all_witness :
  fst (@Tools.find_multiple_games (Demo.online (Demo.search_body Demo.four_games))
         (App.filters_of [("genres", JStr "indie")]) Demo.w0)
  = Ok (Tools.success (JList (map Classes.dump_details (map normalized Demo.four_games))))
  /\ gets (snd (@Tools.find_multiple_games (Demo.online (Demo.search_body Demo.four_games))
                  (App.filters_of [("genres", JStr "indie")]) Demo.w0))
     = S (gets Demo.w0).
Proof.
  apply (@find_multiple_games_returns_all (Demo.online (Demo.search_body Demo.four_games))
           (App.filters_of [("genres", JStr "indie")]) Demo.w0
           [("count", JInt 4); ("results", JList Demo.four_games)] Demo.four_games);
    try (intros; reflexivity).
  - discriminate.
  - intros H. discriminate H.
Defined.

Lemma unexpected_keyword_raises_witness :
  exists msg,
    @App.handle_tool_call Demo.offline
      (MkToolCall "call_3" "find_game_by_name" "{'game_id': 7}") Demo.w0
    = (Raise (MkExn TypeError msg), Demo.w0).
Proof.
  apply (@unexpected_keyword_raises Demo.offline
           (MkToolCall "call_3" "find_game_by_name" "{'game_id': 7}")
           [("game_id", JInt 7)] Demo.w0).
  - reflexivity.
  - right. right. left. reflexivity.
  - reflexivity.
Defined.

Lemma missing_argument_raises_witness :
  exists msg,
    @App.handle_tool_call Demo.offline
      (MkToolCall "call_4" "get_game_description" "{}") Demo.w0
    = (Raise (MkExn TypeError msg), Demo.w0).
Proof.
  apply (@missing_argument_raises Demo.offline
           (MkToolCall "call_4" "get_game_description" "{}") [] Demo.w0).
  - reflexivity.
  - left. split; reflexivity.
Defined.

Lemma raising_call_discards_round_witness :
  @App.chat_loop Demo.broken 5 (@App.initial_messages Demo.broken "What day is it?" [])
    Demo.w0
  = Some (App.MkStop (Raise (MkExn TypeError "'module' object is not callable"))
            (@App.initial_messages Demo.broken "What day is it?" []) Demo.w0).
Proof.
  apply (@raising_call_discards_round Demo.broken 4
           (@App.initial_messages Demo.broken "What day is it?" [])
           (Demo.ask_tools [Demo.date_call; Demo.module_call; Demo.date_call])
           [Demo.date_call] [Demo.date_call] Demo.module_call [Demo.date_turn]
           Demo.w0 Demo.w0 Demo.w0);
    reflexivity.
Defined.

Lemma chat_runs_while_tools_are_requested_witness :
  @App.chat Demo.hungry 40 "What day is it?" [] Demo.w0 = None.
Proof.
  apply (@chat_runs_while_tools_are_requested Demo.hungry).
  intros messages w.
  exists (Demo.ask_tools [Demo.date_call]), [Demo.date_turn], w.
  repeat split.
Defined.

Lemma search_handlers_envelopes_witness :
  (exists m,
      Tools.success
        (JList (map Classes.dump_details (map normalized (firstn 3 Demo.four_games))))
      = Tools.failure ("Database error: " ++ m))
  \/ (exists g gs,
        Tools.success
          (JList (map Classes.dump_details (map normalized (firstn 3 Demo.four_games))))
        = Tools.success
            (JList (Classes.dump_details g :: map Classes.dump_details gs))).
Proof.
  apply (@search_handlers_envelopes (Demo.online (Demo.search_body Demo.four_games))
           (JStr "Celeste") (App.filters_of []) Demo.w0
           (snd (@Tools.find_game_by_name (Demo.online (Demo.search_body Demo.four_games))
                   (JStr "Celeste") Demo.w0))).
  left. reflexivity.
Defined.
